(** * Philips air purifier (CoAP) integration: coordinator, button, humidifier

    A shallow embedding of
    [custom_components/philips_airpurifier_coap/coordinator.py],
    [button.py] and [humidifier.py].

    The asyncio event loop is cooperative and single-threaded: a coroutine
    runs without interruption between two [await]s.  Every method of the
    coordinator that contains no [await] is therefore one atomic state
    transformer, and a coroutine with [await]s is cut at them into the
    steps the loop can interleave with other work.  The event loop's task
    table, the client's answers and the listeners' behaviour are the
    environment of the program and appear as explicit arguments. *)

From stdpp Require Import base option list gmap strings.
From Stdlib Require Import ZArith Lia.

(** ** Python values, exceptions, results *)

(** The values a [DeviceStatus] holds in this code: numbers and strings. *)
Inductive pyval :=
| PyInt (z : Z)
| PyStr (s : string).

#[global] Instance pyval_eq_dec : EqDecision pyval.
Proof. solve_decision. Defined.

(** [DeviceStatus]: a [dict] from attribute key to value. *)
Abbreviation DeviceStatus := (gmap string pyval).

(** The exceptions that occur; all of them derive from [Exception].
    [asyncio.CancelledError] derives from [BaseException] and is not among
    them: cancellation is modelled on the task table. *)
Inductive exn :=
| ValueError
| TypeError
| ZeroDivisionError
| AttributeError
| ClientError (msg : string)
| ConfigEntryNotReady (cause : exn).

Inductive result (A : Type) :=
| Ok (a : A)
| Raise (e : exn).
Arguments Ok {A} a.
Arguments Raise {A} e.

(** ** asyncio tasks *)

Abbreviation task_id := nat (only parsing).
Abbreviation Client := nat (only parsing).
Abbreviation CALLBACK_TYPE := nat (only parsing).

(** Where the coroutine [Coordinator._reconnect] is suspended. *)
Inductive reconnect_pc :=
| AtClientShutdown   (* not yet past [await self.client.shutdown()] *)
| AtClientCreate.    (* suspended in [await CoAPClient.create(self._host)] *)

Inductive coro :=
| ObserveStatus                  (* [self._async_observe_status()] *)
| DoReconnect (pc : reconnect_pc). (* [self._reconnect()] *)

Inductive task_state :=
| Pending
| Cancelled
| Done.

Record Task := mkTask { t_coro : coro; t_state : task_state }.

#[global] Instance reconnect_pc_eq_dec : EqDecision reconnect_pc.
Proof. solve_decision. Defined.
#[global] Instance coro_eq_dec : EqDecision coro.
Proof. solve_decision. Defined.
#[global] Instance task_state_eq_dec : EqDecision task_state.
Proof. solve_decision. Defined.
#[global] Instance Task_eq_dec : EqDecision Task.
Proof. solve_decision. Defined.

Definition is_observe (c : coro) : bool :=
  match c with ObserveStatus => true | DoReconnect _ => false end.

Definition is_reconnect (c : coro) : bool :=
  match c with ObserveStatus => false | DoReconnect _ => true end.

(** ** The liveness timer *)

Module Timer.

(** Modelled from the spec: the class [Timer] of [timer.py], which is not
    among the sources.  Section 4.1: a timer owns a duration, an auto-rearm
    flag and at most one pending countdown; [reset] cancels the countdown
    in flight and starts one of length [timeout]; [setTimeout] changes the
    duration of future countdowns only; [cancel] stops the countdown. *)
Record t := mk {
  timeout : Z;
  auto_restart : bool;
  countdown : option Z
}.

Definition start (tm : t) : t :=
  mk (timeout tm) (auto_restart tm) (Some (timeout tm)).

Definition init (timeout : Z) (autostart : bool) : t :=
  let tm := mk timeout false None in
  if autostart then start tm else tm.

Definition setAutoRestart (b : bool) (tm : t) : t :=
  mk (timeout tm) b (countdown tm).

Definition setTimeout (d : Z) (tm : t) : t :=
  mk d (auto_restart tm) (countdown tm).

Definition cancel (tm : t) : t :=
  mk (timeout tm) (auto_restart tm) None.

Definition reset (tm : t) : t := start (cancel tm).

(** After the callback of an expiry has run. *)
Definition fired (tm : t) : t :=
  if auto_restart tm then start tm else cancel tm.

End Timer.

(** ** The coordinator *)

Definition MISSED_PACKAGE_COUNT : Z := 3.

(** The attributes of a [Coordinator] object. *)
Record Coordinator := mkCoordinator {
  client : Client;
  status : option DeviceStatus;
  _listeners : list CALLBACK_TYPE;
  _task : option task_id;
  _reconnect_task : option task_id;
  _timeout : Z;
  _timer_disconnected : Timer.t
}.

(** What the coordinator does to itself and to its collaborators, in the
    order in which it does it. *)
Inductive effect :=
| SetStatus (s : DeviceStatus)
| TimerSetTimeout (d : Z)
| TimerReset
| TimerCancel
| TaskCancel (t : task_id)
| TaskCreate (t : task_id) (c : coro)
| Call (cb : CALLBACK_TYPE) (seen : option DeviceStatus)
| ClientShutdown (c : Client)
| ClientCreated (c : Client)
| SetControlValue (c : Client) (key : string) (value : option pyval)
| SetControlValues (c : Client) (data : gmap string pyval)
| HandleCoordinatorUpdate
| LogInfo
| LogError (e : exn)
| LogException (e : exn).

(** The coordinator together with the event loop's task table (a task's id
    is its index) and the effects so far. *)
Record World := mkWorld {
  self : Coordinator;
  tasks : list Task;
  trace : list effect
}.

Definition upd (f : Coordinator → Coordinator) (w : World) : World :=
  mkWorld (f (self w)) (tasks w) (trace w).

Definition emit (e : effect) (w : World) : World :=
  mkWorld (self w) (tasks w) (trace w ++ [e]).

Definition set_client (c : Client) (x : Coordinator) : Coordinator :=
  mkCoordinator c (status x) (_listeners x) (_task x) (_reconnect_task x)
                (_timeout x) (_timer_disconnected x).
Definition set_status (s : option DeviceStatus) (x : Coordinator) : Coordinator :=
  mkCoordinator (client x) s (_listeners x) (_task x) (_reconnect_task x)
                (_timeout x) (_timer_disconnected x).
Definition set_listeners (l : list CALLBACK_TYPE) (x : Coordinator) : Coordinator :=
  mkCoordinator (client x) (status x) l (_task x) (_reconnect_task x)
                (_timeout x) (_timer_disconnected x).
Definition set_task (t : option task_id) (x : Coordinator) : Coordinator :=
  mkCoordinator (client x) (status x) (_listeners x) t (_reconnect_task x)
                (_timeout x) (_timer_disconnected x).
Definition set_reconnect_task (t : option task_id) (x : Coordinator) : Coordinator :=
  mkCoordinator (client x) (status x) (_listeners x) (_task x) t
                (_timeout x) (_timer_disconnected x).
Definition set_timeout (d : Z) (x : Coordinator) : Coordinator :=
  mkCoordinator (client x) (status x) (_listeners x) (_task x) (_reconnect_task x)
                d (_timer_disconnected x).
Definition set_timer (f : Timer.t → Timer.t) (x : Coordinator) : Coordinator :=
  mkCoordinator (client x) (status x) (_listeners x) (_task x) (_reconnect_task x)
                (_timeout x) (f (_timer_disconnected x)).

(** [asyncio.create_task(coro)]: a new pending task at the end of the table. *)
Definition create_task (c : coro) (w : World) : task_id * World :=
  let t := length (tasks w) in
  (t, emit (TaskCreate t c) (mkWorld (self w) (tasks w ++ [mkTask c Pending]) (trace w))).

(** [Task.cancel()]: a pending task takes no further step; a task that is
    over is left as it is. *)
Definition cancel_state (k : Task) : Task :=
  match t_state k with
  | Pending => mkTask (t_coro k) Cancelled
  | _ => k
  end.

Definition task_cancel (t : task_id) (w : World) : World :=
  emit (TaskCancel t) (mkWorld (self w) (alter cancel_state t (tasks w)) (trace w)).

Definition finish_state (k : Task) : Task := mkTask (t_coro k) Done.

Definition task_finish (t : task_id) (w : World) : World :=
  mkWorld (self w) (alter finish_state t (tasks w)) (trace w).

Definition timer_reset (w : World) : World :=
  emit TimerReset (upd (set_timer Timer.reset) w).

Definition timer_cancel (w : World) : World :=
  emit TimerCancel (upd (set_timer Timer.cancel) w).

(** [Coordinator.__init__]: the timer is created with
    [self._timeout * MISSED_PACKAGE_COUNT], started, and set to restart. *)
Definition init (c : Client) : World :=
  mkWorld
    (mkCoordinator c None [] None None 60
       (Timer.setAutoRestart true (Timer.init (60 * MISSED_PACKAGE_COUNT) true)))
    [] [].

(** [list.remove(x)]: drops the first element equal to [x]; [None] stands
    for the [ValueError] of a list without one. *)
Fixpoint list_remove (x : CALLBACK_TYPE) (l : list CALLBACK_TYPE)
  : option (list CALLBACK_TYPE) :=
  match l with
  | [] => None
  | y :: l' => if decide (x = y) then Some l' else (y ::.) <$> list_remove x l'
  end.

(** [Coordinator._start_observing] *)
Definition _start_observing (w : World) : World :=
  let w1 := match _task (self w) with
            | Some t => upd (set_task None) (task_cancel t w)
            | None => w
            end in
  let '(t, w2) := create_task ObserveStatus w1 in
  timer_reset (upd (set_task (Some t)) w2).

(** [Coordinator.async_add_listener]; the closure it returns calls
    [async_remove_listener] with the same callback. *)
Definition async_add_listener (cb : CALLBACK_TYPE) (w : World) : World :=
  let start_observing := bool_decide (_listeners (self w) = []) in
  let w1 := upd (set_listeners (_listeners (self w) ++ [cb])) w in
  if start_observing then _start_observing w1 else w1.

(** [Coordinator.async_remove_listener] *)
Definition async_remove_listener (cb : CALLBACK_TYPE) (w : World)
  : result unit * World :=
  match list_remove cb (_listeners (self w)) with
  | None => (Raise ValueError, w)
  | Some l' =>
      let w1 := upd (set_listeners l') w in
      match l', _task (self w1) with
      | [], Some t => (Ok (), upd (set_task None) (task_cancel t w1))
      | _, _ => (Ok (), w1)
      end
  end.

(** [Coordinator.async_first_refresh]; [r] is what
    [await self.client.get_status()] gives. *)
Definition async_first_refresh (r : result (DeviceStatus * Z)) (w : World)
  : result unit * World :=
  match r with
  | Ok (s, timeout) =>
      let w1 := emit (SetStatus s) (upd (set_status (Some s)) w) in
      let w2 := upd (set_timeout timeout) w1 in
      let d := (timeout * MISSED_PACKAGE_COUNT)%Z in
      (Ok (), emit (TimerSetTimeout d) (upd (set_timer (Timer.setTimeout d)) w2))
  | Raise ex => (Raise (ConfigEntryNotReady ex), emit (LogError ex) w)
  end.

(** [Coordinator.reconnect]; nothing in its [try] block raises, so the
    handler that logs is never entered. *)
Definition reconnect (w : World) : World :=
  let w1 := match _reconnect_task (self w) with
            | Some t => upd (set_reconnect_task None) (task_cancel t w)
            | None => w
            end in
  let '(t, w2) := create_task (DoReconnect AtClientShutdown) w1 in
  upd (set_reconnect_task (Some t)) w2.

(** [Coordinator.shutdown]; [r] is what [await self.client.shutdown()]
    gives.  [__init__] always sets the timer and the client, so the two
    tests [is not None] on them hold. *)
Definition shutdown (r : result unit) (w : World) : result unit * World :=
  let w1 := match _reconnect_task (self w) with
            | Some t => task_cancel t w
            | None => w
            end in
  let w2 := timer_cancel w1 in
  (r, emit (ClientShutdown (client (self w2))) w2).

(** ** The coroutines and the environment *)

Section Listeners.

(** A listener is a callable of no argument that the coordinator does not
    know: [call cb seen] is what calling [cb] does when the coordinator's
    [status] reads [seen], returning or raising.  Listeners do not call
    back into the coordinator while they run. *)
Variable call : CALLBACK_TYPE → option DeviceStatus → result unit.

(** [for update_callback in self._listeners: update_callback()] *)
Fixpoint notify (l : list CALLBACK_TYPE) (w : World) : result unit * World :=
  match l with
  | [] => (Ok (), w)
  | cb :: l' =>
      let seen := status (self w) in
      let w1 := emit (Call cb seen) w in
      match call cb seen with
      | Ok _ => notify l' w1
      | Raise e => (Raise e, w1)
      end
  end.

(** One turn of the loop of [Coordinator._async_observe_status], for the
    status [s] drawn from [self.client.observe_status()]. *)
Definition _async_observe_status (s : DeviceStatus) (w : World)
  : result unit * World :=
  let w1 := emit (SetStatus s) (upd (set_status (Some s)) w) in
  let w2 := timer_reset w1 in
  notify (_listeners (self w2)) w2.

(** [Coordinator._reconnect] up to [await CoAPClient.create]: the client's
    [shutdown] has returned or raised, and [contextlib.suppress(Exception)]
    drops what it raised. *)
Definition _reconnect_shutdown (t : task_id) (r : result unit) (w : World) : World :=
  let w1 := emit (ClientShutdown (client (self w))) w in
  mkWorld (self w1)
          (<[t := mkTask (DoReconnect AtClientCreate) Pending]> (tasks w1))
          (trace w1).

(** [Coordinator._reconnect] from the answer [r] of [CoAPClient.create] to
    its end. *)
Definition _reconnect_create (t : task_id) (r : result Client) (w : World) : World :=
  match r with
  | Ok c =>
      let w1 := emit (ClientCreated c) (upd (set_client c) w) in
      task_finish t (_start_observing w1)
  | Raise e => task_finish t (emit (LogException e) w)
  end.

(** What can happen to a coordinator: calls of its public methods by the
    host, the expiry of its timer, and the steps of its two coroutines as
    the event loop resumes them. *)
Inductive event :=
| EvFirstRefresh (r : result (DeviceStatus * Z))
| EvAddListener (cb : CALLBACK_TYPE)
| EvRemoveListener (cb : CALLBACK_TYPE)
| EvReconnect
| EvTimerExpired
| EvShutdown (r : result unit)
| EvStatus (t : task_id) (s : DeviceStatus)
| EvStreamEnd (t : task_id)
| EvReconnectShutdown (t : task_id) (r : result unit)
| EvReconnectCreate (t : task_id) (r : result Client).

Definition suspended (t : task_id) (c : coro) (w : World) : bool :=
  bool_decide (tasks w !! t = Some (mkTask c Pending)).

Definition step (e : event) (w : World) : World :=
  match e with
  | EvFirstRefresh r => (async_first_refresh r w).2
  | EvAddListener cb => async_add_listener cb w
  | EvRemoveListener cb => (async_remove_listener cb w).2
  | EvReconnect => reconnect w
  | EvTimerExpired =>
      match Timer.countdown (_timer_disconnected (self w)) with
      | Some _ => upd (set_timer Timer.fired) (reconnect w)
      | None => w
      end
  | EvShutdown r => (shutdown r w).2
  | EvStatus t s =>
      if suspended t ObserveStatus w then
        match _async_observe_status s w with
        | (Ok _, w') => w'
        | (Raise _, w') => task_finish t w'
        end
      else w
  | EvStreamEnd t =>
      if suspended t ObserveStatus w then task_finish t w else w
  | EvReconnectShutdown t r =>
      if suspended t (DoReconnect AtClientShutdown) w
      then _reconnect_shutdown t r w else w
  | EvReconnectCreate t r =>
      if suspended t (DoReconnect AtClientCreate) w
      then _reconnect_create t r w else w
  end.

Definition run (es : list event) (w : World) : World :=
  foldl (λ w e, step e w) w es.

(** The calls of the two listener methods alone. *)
Inductive listener_call :=
| Add (cb : CALLBACK_TYPE)
| Remove (cb : CALLBACK_TYPE).

Definition listener_event (c : listener_call) : event :=
  match c with
  | Add cb => EvAddListener cb
  | Remove cb => EvRemoveListener cb
  end.

(** ** Observations on a world *)

(** Task [t] runs coroutine of kind [k] and has not ended. *)
Definition live_in (k : coro → bool) (ts : list Task) (t : task_id) : Prop :=
  ∃ c, ts !! t = Some (mkTask c Pending) ∧ k c = true.

Definition live (k : coro → bool) (w : World) (t : task_id) : Prop :=
  live_in k (tasks w) t.

(** The coordinator holds an observation task, and it is live. *)
Definition observing (w : World) : Prop :=
  ∃ t, _task (self w) = Some t ∧ live is_observe w t.

End Listeners.

(** ** The control surfaces

    [PhilipsEntity] ([philips.py]) and the tables of [const.py] are not among
    the sources.  An entity's [_device_status] is the coordinator's cached
    status and [_handle_coordinator_update] is its local refresh; the
    entries of a description that a method reads are fields of the entity. *)

(** Modelled from the spec: [PhilipsEntity._device_status], the
    coordinator's cached status as the subscriber reads it (section 2, data
    flow).  [.get(k)] on it; [None] has no [get]. *)
Definition device_status_get (k : string) (w : World) : result (option pyval) :=
  match status (self w) with
  | Some d => Ok (d !! k)
  | None => Raise AttributeError
  end.

(** Modelled from the spec: [self._device_status[k] = v], the optimistic
    patch of the coordinator's cache by the subscriber (section 2). *)
Definition device_status_set (k : string) (v : pyval) (w : World)
  : result unit * World :=
  match status (self w) with
  | Some d => (Ok (), upd (set_status (Some (<[k := v]> d))) w)
  | None => (Raise TypeError, w)
  end.

(** Modelled from the spec: [PhilipsEntity._handle_coordinator_update], the
    local refresh callback invoked after a write (section 2). *)
Definition _handle_coordinator_update (w : World) : World :=
  emit HandleCoordinatorUpdate w.

Module Button.

Record PhilipsFilterResetButton := mk {
  _filter_type : string;
  TOTAL : string   (* [self._description[FanAttributes.TOTAL]] *)
}.

(** [PhilipsFilterResetButton.async_press]; [r] is what
    [await self.coordinator.client.set_control_value(...)] gives. *)
Definition async_press (b : PhilipsFilterResetButton) (r : result unit) (w : World)
  : result unit * World :=
  let body : result unit * World :=
    match device_status_get (TOTAL b) w with
    | Raise e => (Raise e, w)
    | Ok total_value =>
        let w1 := emit (SetControlValue (client (self w)) (_filter_type b) total_value) w in
        match r with
        | Raise e => (Raise e, w1)
        | Ok _ => (Ok (), emit LogInfo (_handle_coordinator_update w1))
        end
    end in
  match body with
  | (Ok _, w') => (Ok (), w')
  | (Raise error, w') => (Ok (), emit (LogError error) w')
  end.

End Button.

(** [round(n / d)] for integers [n] and [d ≠ 0]: the integer nearest to the
    quotient, a tie going to the even one.  Python divides in floating
    point; for [|n| < 2^52] the float quotient rounds to the same integer
    as the exact one. *)
Definition round_div (n d : Z) : Z :=
  let q := (n `div` d)%Z in
  let r := (n `mod` d)%Z in
  match (2 * Z.abs r ?= Z.abs d)%Z with
  | Lt => q
  | Gt => (q + 1)%Z
  | Eq => if Z.even q then q else (q + 1)%Z
  end.

Module Humidifier.

Record PhilipsHumidifier := mk {
  _power_key : string;
  _function_key : string;
  _humidity_target_key : string;
  _switch : bool;
  _attr_min_humidity : Z;
  _attr_max_humidity : Z;
  (* entries of [self._description] *)
  ON : pyval;
  HUMIDIFYING : pyval;
  IDLE : pyval;
  STEP : Z
}.

Section Builtins.

(** Python's [int] on a [str]: the number the text denotes, [None] where
    [int] raises [ValueError]. *)
Variable int_of_str : string → option Z.

(** [int(x)] *)
Definition int (x : option pyval) : result Z :=
  match x with
  | None => Raise TypeError
  | Some (PyInt z) => Ok z
  | Some (PyStr s) =>
      match int_of_str s with Some z => Ok z | None => Raise ValueError end
  end.

(** [PhilipsHumidifier.target_humidity] *)
Definition target_humidity (h : PhilipsHumidifier) (w : World) : result (option pyval) :=
  device_status_get (_humidity_target_key h) w.

(** The plus and minus buttons of [async_set_humidity]: one above or below
    the current target moves by a whole step. *)
Definition adjust (step current humidity : Z) : Z :=
  if decide (humidity = current + 1)%Z then (current + step)%Z
  else if decide (humidity = current - 1)%Z then (current - step)%Z
  else humidity.

(** [max(min_humidity, min(round(humidity / step) * step, max_humidity))] *)
Definition on_step_in_bounds (h : PhilipsHumidifier) (humidity : Z) : Z :=
  let target := (round_div humidity (STEP h) * STEP h)%Z in
  (_attr_min_humidity h `max` (target `min` _attr_max_humidity h))%Z.

(** [PhilipsHumidifier.async_turn_on]; [r] is what
    [await self.coordinator.client.set_control_values(...)] gives. *)
Definition async_turn_on (h : PhilipsHumidifier) (r : result unit) (w : World)
  : result unit * World :=
  if negb (_switch h) then (Ok (), w)
  else
    let data : gmap string pyval :=
      <[_function_key h := HUMIDIFYING h]> {[ _power_key h := ON h ]} in
    let w1 := emit (SetControlValues (client (self w)) data) w in
    match r with
    | Raise e => (Raise e, w1)
    | Ok _ =>
        match device_status_set (_power_key h) (ON h) w1 with
        | (Raise e, w2) => (Raise e, w2)
        | (Ok _, w2) =>
            match device_status_set (_function_key h) (HUMIDIFYING h) w2 with
            | (Raise e, w3) => (Raise e, w3)
            | (Ok _, w3) => (Ok (), _handle_coordinator_update w3)
            end
        end
    end.

(** [PhilipsHumidifier.async_turn_off] *)
Definition async_turn_off (h : PhilipsHumidifier) (r : result unit) (w : World)
  : result unit * World :=
  if negb (_switch h) then (Ok (), w)
  else
    let data : gmap string pyval := {[ _function_key h := IDLE h ]} in
    let w1 := emit (SetControlValues (client (self w)) data) w in
    match r with
    | Raise e => (Raise e, w1)
    | Ok _ =>
        match device_status_set (_function_key h) (IDLE h) w1 with
        | (Raise e, w2) => (Raise e, w2)
        | (Ok _, w2) => (Ok (), _handle_coordinator_update w2)
        end
    end.

(** [PhilipsHumidifier.async_set_humidity]; [r] is what
    [await self.coordinator.client.set_control_value(...)] gives. *)
Definition async_set_humidity (h : PhilipsHumidifier) (humidity : pyval)
    (r : result unit) (w : World) : result unit * World :=
  let step := STEP h in
  match int (Some humidity) with
  | Raise e => (Raise e, w)
  | Ok humidity =>
      match target_humidity h w with
      | Raise e => (Raise e, w)
      | Ok current_target =>
          match int current_target with
          | Raise e => (Raise e, w)
          | Ok current =>
              let humidity := adjust step current humidity in
              if decide (step = 0)%Z then (Raise ZeroDivisionError, w)
              else
                let target := on_step_in_bounds h humidity in
                let w1 := emit (SetControlValue (client (self w))
                                  (_humidity_target_key h) (Some (PyInt target))) w in
                match r with
                | Raise e => (Raise e, w1)
                | Ok _ =>
                    match device_status_set (_humidity_target_key h) (PyInt humidity) w1 with
                    | (Raise e, w2) => (Raise e, w2)
                    | (Ok _, w2) => (Ok (), _handle_coordinator_update w2)
                    end
                end
          end
      end
  end.

End Builtins.

End Humidifier.

(** ** Listeners used in the examples *)

(** Every listener returns. *)
Definition call_ok : CALLBACK_TYPE → option DeviceStatus → result unit :=
  λ _ _, Ok ().

(** Listener [1] raises, the others return. *)
Definition call_1_raises : CALLBACK_TYPE → option DeviceStatus → result unit :=
  λ cb _, if decide (cb = 1) then Raise ValueError else Ok ().

(** A humidifier with targets from 40 to 70 in steps of 10, and a world
    whose cached status has the target at 50. *)
Definition humidifier_10 : Humidifier.PhilipsHumidifier :=
  Humidifier.mk "pwr" "func" "rhset" true 40 70
                (PyStr "1") (PyStr "PH") (PyStr "P") 10.

Definition world_rhset_50 : World :=
  (async_first_refresh (Ok ({[ "rhset" := PyInt 50 ]}, 60%Z)) (init 0)).2.

(** A reset button for the filter ["fltsts0"]. *)
Definition button_fltsts0 : Button.PhilipsFilterResetButton :=
  Button.mk "fltsts0" "flttotal0".


(** The listeners of [l] up to and including the first that raises when the
    status reads [seen]. *)
Fixpoint delivered (call : CALLBACK_TYPE → option DeviceStatus → result unit)
    (seen : option DeviceStatus) (l : list CALLBACK_TYPE) : list CALLBACK_TYPE :=
  match l with
  | [] => []
  | cb :: l' =>
      cb :: match call cb seen with
            | Ok _ => delivered call seen l'
            | Raise _ => []
            end
  end.

(** ** Invariants *)

(** With calls of the two listener methods only: no listener and no task,
    or some listener and a pending observation task. *)
Definition idle_or_observing (w : World) : Prop :=
  match _listeners (self w) with
  | [] => _task (self w) = None
  | _ :: _ =>
      ∃ t, _task (self w) = Some t ∧ tasks w !! t = Some (mkTask ObserveStatus Pending)
  end.

(** Every live task is the one the coordinator holds for its kind, and the
    tasks it holds are tasks of the table. *)
Definition tasks_held (w : World) : Prop :=
  (∀ t, live is_observe w t → _task (self w) = Some t) ∧
  (∀ t, live is_reconnect w t → _reconnect_task (self w) = Some t) ∧
  (∀ t, _task (self w) = Some t → t < length (tasks w)) ∧
  (∀ t, _reconnect_task (self w) = Some t → t < length (tasks w)).

(** Task [t] of the table runs a coroutine of kind [k]. *)
Definition kind_at (k : coro → bool) (ts : list Task) (t : task_id) : Prop :=
  ∃ x, ts !! t = Some x ∧ k (t_coro x) = true.

(** The task held as observation task runs [_async_observe_status], the one
    held as reconnect task runs [_reconnect]. *)
Definition handles_typed (w : World) : Prop :=
  (∀ t, _task (self w) = Some t → kind_at is_observe (tasks w) t) ∧
  (∀ t, _reconnect_task (self w) = Some t → kind_at is_reconnect (tasks w) t).

(** The timer's duration is the stored interval times
    [MISSED_PACKAGE_COUNT], and the timer restarts itself. *)
Definition timer_configured (w : World) : Prop :=
  Timer.timeout (_timer_disconnected (self w))
  = (_timeout (self w) * MISSED_PACKAGE_COUNT)%Z
  ∧ Timer.auto_restart (_timer_disconnected (self w)) = true.

(** The effects of one turn of the observation loop for the status [s]
    when the listeners [ls] all return. *)
Definition update_effects (ls : list CALLBACK_TYPE) (s : DeviceStatus) : list effect :=
  [SetStatus s; TimerReset] ++ ((λ cb, Call cb (Some s)) <$> ls).

(** A world in which a reconnect task is suspended in
    [await CoAPClient.create], and one with a listener registered. *)
Definition world_reconnecting : World :=
  run call_ok [EvReconnect; EvReconnectShutdown 0 (Ok ())] (init 0).

Definition world_one_listener : World :=
  run call_ok [EvAddListener 1] (init 0).

(** ** The rest of the control surfaces *)

(** [homeassistant.components.humidifier.HumidifierAction], the two members
    the code returns. *)
Inductive HumidifierAction :=
| ActionHumidifying   (* [HumidifierAction.HUMIDIFYING] *)
| ActionIdle.         (* [HumidifierAction.IDLE] *)

(** [PhilipsHumidifier.action] *)
Definition action (h : Humidifier.PhilipsHumidifier) (w : World)
  : result HumidifierAction :=
  match device_status_get (Humidifier._function_key h) w with
  | Raise e => Raise e
  | Ok function_status =>
      if decide (function_status = Some (Humidifier.HUMIDIFYING h))
      then Ok ActionHumidifying
      else Ok ActionIdle
  end.

(** [PhilipsHumidifier.is_on] *)
Definition is_on (h : Humidifier.PhilipsHumidifier) (w : World) : result bool :=
  match action h w with
  | Raise e => Raise e
  | Ok ActionHumidifying => Ok true
  | Ok ActionIdle => Ok false
  end.

(** [s.partition(sep)[0]] for a separator of one character: the text before
    the first [sep], all of [s] when it has none. *)
Fixpoint partition_head (sep : Ascii.ascii) (s : string) : string :=
  match s with
  | EmptyString => EmptyString
  | String a s' =>
      if decide (a = sep) then EmptyString else String a (partition_head sep s')
  end.

(** The character ["#"]. *)
Definition hash : Ascii.ascii := Ascii.ascii_of_nat 35.

(** The entries of a humidifier's description in [HUMIDIFIER_TYPES] that
    [PhilipsHumidifier] keeps or reads in the methods above. *)
Record HumidifierDescription := mkHumidifierDescription {
  d_POWER : string;
  d_FUNCTION : string;
  d_SWITCH : bool;
  d_MIN_HUMIDITY : Z;
  d_MAX_HUMIDITY : Z;
  d_ON : pyval;
  d_HUMIDIFYING : pyval;
  d_IDLE : pyval;
  d_STEP : Z
}.

(** [PhilipsHumidifier.__init__], the attributes the methods above use, for
    the key [humidifier] of [HUMIDIFIER_TYPES] and its description. *)
Definition humidifier_init (humidifier : string) (d : HumidifierDescription)
  : Humidifier.PhilipsHumidifier :=
  Humidifier.mk (d_POWER d) (d_FUNCTION d) (partition_head hash humidifier)
                (d_SWITCH d) (d_MIN_HUMIDITY d) (d_MAX_HUMIDITY d)
                (d_ON d) (d_HUMIDIFYING d) (d_IDLE d) (d_STEP d).

(** The loop over [reversed(model_class.__mro__)] of both
    [async_setup_entry]: [attrs] holds, in the order of the [__mro__], what
    [getattr(cls, name, [])] gives for each class. *)
Definition mro_collect (attrs : list (list string)) : list string :=
  concat (reverse attrs).

(** [button.async_setup_entry]: the buttons handed to [async_add_entities];
    [None] for a model that [model_to_class] does not know, where an error
    is logged and nothing is added.  [FILTER_TYPES] lists each filter with
    the [TOTAL] entry of its description, in the order of the dict. *)
Definition button_async_setup_entry (FILTER_TYPES : list (string * string))
    (model_class : option (list (list string))) (status : DeviceStatus)
  : option (list Button.PhilipsFilterResetButton) :=
  match model_class with
  | None => None
  | Some attrs =>
      let unavailable_filters := mro_collect attrs in
      Some ((λ ft, Button.mk ft.1 ft.2)
              <$> filter (λ ft, is_Some (status !! ft.1) ∧ ft.1 ∉ unavailable_filters)
                         FILTER_TYPES)
  end.

(** [humidifier.async_setup_entry], likewise. *)
Definition humidifier_async_setup_entry
    (HUMIDIFIER_TYPES : list (string * HumidifierDescription))
    (model_class : option (list (list string)))
  : option (list Humidifier.PhilipsHumidifier) :=
  match model_class with
  | None => None
  | Some attrs =>
      let available_humidifiers := mro_collect attrs in
      Some ((λ hd, humidifier_init hd.1 hd.2)
              <$> filter (λ hd, hd.1 ∈ available_humidifiers) HUMIDIFIER_TYPES)
  end.

(** The description of [humidifier_10]. *)
Definition description_10 : HumidifierDescription :=
  mkHumidifierDescription "pwr" "func" true 40 70
    (PyStr "1") (PyStr "PH") (PyStr "P") 10.

(** [PhilipsFilterResetButton.__init__]: [self._attr_unique_id], the text
    [f"{model}-{device_id}-{filter_type}-reset"] for the model and the
    device id of the config entry. *)
Definition button_unique_id (model device_id filter_type : string) : string :=
  model +:+ "-" +:+ device_id +:+ "-" +:+ filter_type +:+ "-reset".

(** ** Runs that do not disturb the observation *)

Section Undisturbed.

Variable call : CALLBACK_TYPE → option DeviceStatus → result unit.

(** The events that leave the observation as the listener methods set it
    up: all of them, except the end of the stream of a live observation
    task, an update of a live observation task during which a listener
    raises, and the [CoAPClient.create] that returns to a live reconnect
    task while no listener is registered. *)
Definition undisturbing (e : event) (w : World) : bool :=
  match e with
  | EvStreamEnd t => negb (suspended t ObserveStatus w)
  | EvStatus t s =>
      negb (suspended t ObserveStatus w)
      || match (_async_observe_status call s w).1 with
         | Ok _ => true
         | Raise _ => false
         end
  | EvReconnectCreate t (Ok _) =>
      negb (suspended t (DoReconnect AtClientCreate) w)
      || negb (bool_decide (_listeners (self w) = []))
  | _ => true
  end.

(** Every event of the run is undisturbing in the state it happens in. *)
Fixpoint undisturbed (es : list event) (w : World) : bool :=
  match es with
  | [] => true
  | e :: es' => undisturbing e w && undisturbed es' (step call e w)
  end.

End Undisturbed.

(** * Properties *)

(** ** Facts on lists and on the task table *)

Lemma list_remove_None (x : nat) (l : list nat) :
  list_remove x l = None ↔ x ∉ l.
Proof.
  induction l as [|y l IH]; simpl.
  - split; [intros _; apply not_elem_of_nil | done].
  - case_decide as Hxy.
    + subst. split; [done | intros H; exfalso; apply H; left].
    + rewrite not_elem_of_cons, <- IH.
      destruct (list_remove x l); simpl; split; try done.
      intros [_ ?]; done.
Qed.

Lemma cancel_state_not_pending (k : Task) : t_state (cancel_state k) ≠ Pending.
Proof. destruct k as [c []]; done. Qed.

Lemma live_in_alter_cancel (k : coro → bool) (ts : list Task) (t t' : nat) :
  live_in k (alter cancel_state t ts) t' → t' ≠ t ∧ live_in k ts t'.
Proof.
  intros (c & Hl & Hk).
  destruct (decide (t' = t)) as [->|Hne].
  - rewrite list_lookup_alter_eq in Hl.
    destruct (ts !! t) as [x|] eqn:Hx; simplify_eq/=.
    pose proof (cancel_state_not_pending x) as Hn.
    rewrite Hl in Hn. done.
  - rewrite list_lookup_alter_ne in Hl by done. split; [done|]. by exists c.
Qed.

Lemma live_in_alter_finish (k : coro → bool) (ts : list Task) (t t' : nat) :
  live_in k (alter finish_state t ts) t' → t' ≠ t ∧ live_in k ts t'.
Proof.
  intros (c & Hl & Hk).
  destruct (decide (t' = t)) as [->|Hne].
  - rewrite list_lookup_alter_eq in Hl.
    destruct (ts !! t) as [x|] eqn:Hx; simplify_eq/=.
  - rewrite list_lookup_alter_ne in Hl by done. split; [done|]. by exists c.
Qed.

Lemma live_in_snoc (k : coro → bool) (ts : list Task) (x : Task) (t : nat) :
  live_in k (ts ++ [x]) t →
  (t = length ts ∧ t_state x = Pending ∧ k (t_coro x) = true) ∨ live_in k ts t.
Proof.
  intros (c & Hl & Hk).
  destruct (decide (t < length ts)) as [Hlt|Hge].
  - rewrite lookup_app_l in Hl by done. right. by exists c.
  - rewrite lookup_app_r in Hl by lia.
    destruct (t - length ts) as [|n] eqn:Hn; simplify_eq/=.
    left. split; [lia | done].
Qed.

Lemma live_in_new (k : coro → bool) (ts : list Task) (c : coro) :
  k c = true → live_in k (ts ++ [mkTask c Pending]) (length ts).
Proof.
  intros Hk. exists c. split; [|done].
  rewrite lookup_app_r by lia. by rewrite Nat.sub_diag.
Qed.

Lemma live_in_bound (k : coro → bool) (ts : list Task) (t : nat) :
  live_in k ts t → t < length ts.
Proof. intros (c & Hl & _). by eapply lookup_lt_Some. Qed.

(** ** Listeners: removal, and observation while there are listeners *)

Section Listener_calls.

Variable call : CALLBACK_TYPE → option DeviceStatus → result unit.

(** C1, as amended: [async_remove_listener] with a callback that is not
    registered raises [ValueError] (that of [list.remove]) and leaves the
    listener list, and the whole coordinator, as they were. *)
Theorem remove_unregistered_raises (cb : CALLBACK_TYPE) (w : World) :
  cb ∉ _listeners (self w) →
  async_remove_listener cb w = (Raise ValueError, w).
Proof.
  intros Hcb. unfold async_remove_listener.
  apply list_remove_None in Hcb. by rewrite Hcb.
Qed.

Lemma init_idle (c0 : Client) : idle_or_observing (init c0).
Proof. done. Qed.

Lemma add_listener_idle_or_observing (cb : CALLBACK_TYPE) (w : World) :
  idle_or_observing w → idle_or_observing (async_add_listener cb w).
Proof.
  unfold idle_or_observing, async_add_listener.
  destruct w as [[c st l tk rt d tm] ts tr]; simpl.
  destruct l as [|x l]; simpl.
  - intros ->. unfold _start_observing; simpl.
    exists (length ts). split; [done|].
    rewrite lookup_app_r by lia. by rewrite Nat.sub_diag.
  - done.
Qed.

Lemma list_remove_Some_cons (x : nat) (l l' : list nat) :
  list_remove x l = Some l' → ∃ y l0, l = y :: l0.
Proof. destruct l; [done | eauto]. Qed.

Lemma remove_listener_idle_or_observing (cb : CALLBACK_TYPE) (w : World) :
  idle_or_observing w → idle_or_observing (async_remove_listener cb w).2.
Proof.
  unfold idle_or_observing, async_remove_listener.
  destruct w as [[c st l tk rt d tm] ts tr]; simpl.
  destruct (list_remove cb l) as [l'|] eqn:Hrm; simpl; [|done].
  destruct (list_remove_Some_cons _ _ _ Hrm) as (y & l0 & ->).
  intros (t & -> & Ht).
  destruct l' as [|z l']; simpl; [done|]. eauto.
Qed.

Lemma listener_calls_idle_or_observing (c0 : Client) (cs : list listener_call) :
  idle_or_observing (run call (listener_event <$> cs) (init c0)).
Proof.
  induction cs as [|c cs IH] using rev_ind; [apply init_idle|].
  unfold run in *. rewrite fmap_app, foldl_app. simpl.
  destruct c; simpl.
  - by apply add_listener_idle_or_observing.
  - by apply remove_listener_idle_or_observing.
Qed.

Lemma idle_or_observing_iff (w : World) :
  idle_or_observing w → (observing w ↔ _listeners (self w) ≠ []).
Proof.
  unfold idle_or_observing, observing, live, live_in.
  destruct (_listeners (self w)) as [|x l].
  - intros ->. split; [intros (t & ? & _); done | done].
  - intros (t & Ht & Hl). split; [done|]. intros _.
    exists t. split; [done|]. by exists ObserveStatus.
Qed.

(** With nothing but calls of [async_add_listener] and
    [async_remove_listener] from a fresh coordinator, the coordinator holds
    a live observation task exactly when its listener list is not empty; the
    call that adds the first listener creates the task (and resets the
    timer), and the call that removes the last one cancels the task and
    clears the attribute. *)
Theorem observing_iff_listeners (c0 : Client) (cs : list listener_call) :
  let w := run call (listener_event <$> cs) (init c0) in
  (observing w ↔ _listeners (self w) ≠ []) ∧
  (∀ cb, _listeners (self w) = [] →
     let w' := async_add_listener cb w in
     trace w' = trace w ++ [TaskCreate (length (tasks w)) ObserveStatus; TimerReset]
     ∧ _task (self w') = Some (length (tasks w))
     ∧ observing w') ∧
  (∀ cb, _listeners (self w) = [cb] →
     ∃ t, _task (self w) = Some t ∧
       let w' := (async_remove_listener cb w).2 in
       (async_remove_listener cb w).1 = Ok ()
       ∧ trace w' = trace w ++ [TaskCancel t]
       ∧ _listeners (self w') = []
       ∧ _task (self w') = None
       ∧ ¬ live is_observe w' t
       ∧ ¬ observing w').
Proof.
  intros w. pose proof (listener_calls_idle_or_observing c0 cs) as Hinv.
  fold w in Hinv. clearbody w.
  split; [by apply idle_or_observing_iff|]. split.
  - intros cb Hl.
    pose proof (add_listener_idle_or_observing cb w Hinv) as Hinv'.
    apply idle_or_observing_iff in Hinv'.
    unfold idle_or_observing in Hinv. rewrite Hl in Hinv.
    destruct w as [[c st l tk rt d tm] ts tr]; simpl in *; subst.
    split; [|split]; [| done | by apply Hinv'].
    unfold async_add_listener, _start_observing; simpl.
    by rewrite <- app_assoc.
  - intros cb Hl.
    pose proof (remove_listener_idle_or_observing cb w Hinv) as Hinv'.
    apply idle_or_observing_iff in Hinv'.
    unfold idle_or_observing in Hinv. rewrite Hl in Hinv.
    destruct Hinv as (t & Ht & Hlk). exists t. split; [done|].
    destruct w as [[c st l tk rt d tm] ts tr]; simpl in *; subst.
    unfold async_remove_listener in *; simpl in *.
    rewrite decide_True in * by done. simpl in *.
    split; [done|]. split; [done|]. split; [done|]. split; [done|].
    split.
    + intros Hlive. by apply live_in_alter_cancel in Hlive as [? _].
    + intros Hobs. by apply Hinv' in Hobs.
Qed.

End Listener_calls.

(** C1, at a fresh coordinator: removing callback [7], which was never
    registered, raises. *)
Lemma remove_unregistered_counterexample :
  (7 ∉ _listeners (self (init 0))) ∧
  (async_remove_listener 7 (init 0)).1 = Raise ValueError.
Proof. split; [apply not_elem_of_nil | reflexivity]. Qed.

(** C1, as amended, at a fresh coordinator and callback [7]. *)
Lemma remove_unregistered_raises_witness :
  (7 ∉ _listeners (self (init 0))) ∧
  async_remove_listener 7 (init 0) = (Raise ValueError, init 0).
Proof.
  split; [apply not_elem_of_nil|].
  apply (remove_unregistered_raises 7 (init 0)). apply not_elem_of_nil.
Defined.

(** ** The first refresh *)

(** C4: when [get_status] raises [ex], [async_first_refresh] raises
    [ConfigEntryNotReady] (from [ex]); the coordinator's attributes, the
    cached status among them, and the task table are as before, the only
    effect is the logged error, and on a fresh coordinator the status is
    still absent. *)
Theorem first_refresh_failure (ex : exn) (w : World) (c0 : Client) :
  let w' := (async_first_refresh (Raise ex) w).2 in
  (async_first_refresh (Raise ex) w).1 = Raise (ConfigEntryNotReady ex)
  ∧ self w' = self w
  ∧ status (self w') = status (self w)
  ∧ tasks w' = tasks w
  ∧ trace w' = trace w ++ [LogError ex]
  ∧ status (self (async_first_refresh (Raise ex) (init c0)).2) = None
  ∧ _task (self (async_first_refresh (Raise ex) (init c0)).2) = None
  ∧ tasks (async_first_refresh (Raise ex) (init c0)).2 = [].
Proof. repeat split. Qed.

(** C5: when [get_status] returns the status [s] and the interval
    [timeout], [async_first_refresh] returns, the cached status is [s], the
    interval is stored, and the timer's duration is
    [timeout * MISSED_PACKAGE_COUNT], that is three times [timeout]: 180 for
    60.  The countdown in progress is not touched. *)
Theorem first_refresh_success (s : DeviceStatus) (timeout : Z) (w : World) :
  let w' := (async_first_refresh (Ok (s, timeout)) w).2 in
  (async_first_refresh (Ok (s, timeout)) w).1 = Ok ()
  ∧ status (self w') = Some s
  ∧ _timeout (self w') = timeout
  ∧ Timer.timeout (_timer_disconnected (self w')) = (timeout * 3)%Z
  ∧ Timer.countdown (_timer_disconnected (self w'))
    = Timer.countdown (_timer_disconnected (self w))
  ∧ trace w' = trace w ++ [SetStatus s; TimerSetTimeout (timeout * 3)]
  ∧ tasks w' = tasks w
  ∧ Timer.timeout
      (_timer_disconnected (self (async_first_refresh (Ok (s, 60%Z)) w).2)) = 180%Z.
Proof.
  simpl. repeat split. by rewrite <- app_assoc.
Qed.

(** ** One status update *)

Section Observation.

Variable call : CALLBACK_TYPE → option DeviceStatus → result unit.

Lemma notify_trace (l : list CALLBACK_TYPE) (w : World) :
  let w' := (notify call l w).2 in
  self w' = self w
  ∧ tasks w' = tasks w
  ∧ trace w' = trace w ++ ((λ cb, Call cb (status (self w))) <$> delivered call (status (self w)) l).
Proof.
  revert w. induction l as [|cb l IH]; intros w; simpl.
  - by rewrite app_nil_r.
  - destruct (call cb (status (self w))) as [[]|e]; simpl.
    + destruct (IH (emit (Call cb (status (self w))) w)) as (Hs & Ht & Htr).
      simpl in *. rewrite Hs, Ht, Htr. by rewrite <- app_assoc.
    + done.
Qed.

Lemma notify_result (l : list CALLBACK_TYPE) (w : World) :
  (∀ cb, cb ∈ l → call cb (status (self w)) = Ok ()) →
  (notify call l w).1 = Ok () ∧ delivered call (status (self w)) l = l.
Proof.
  revert w. induction l as [|cb l IH]; intros w Hok; simpl; [done|].
  rewrite (Hok cb) by left.
  destruct (IH (emit (Call cb (status (self w))) w)) as [Hr Hd].
  - intros cb' Hcb'. apply Hok. by right.
  - simpl in Hd. by rewrite Hr, Hd.
Qed.

(** C3, as amended: for a status [s] drawn by the observation loop, the
    coordinator replaces the cached status by [s], then resets the timer,
    then calls the listeners in the order of the list, once for each
    registration, up to and including the first one that raises; each
    listener called finds [s] as the status.  When no listener raises, every
    entry of the list is called, and the turn of the loop returns. *)
Theorem observe_status_update (s : DeviceStatus) (w : World) :
  let w' := (_async_observe_status call s w).2 in
  trace w' = trace w ++ [SetStatus s; TimerReset]
               ++ ((λ cb, Call cb (Some s)) <$> delivered call (Some s) (_listeners (self w)))
  ∧ status (self w') = Some s
  ∧ _listeners (self w') = _listeners (self w)
  ∧ Timer.countdown (_timer_disconnected (self w'))
    = Some (Timer.timeout (_timer_disconnected (self w)))
  ∧ ((∀ cb, cb ∈ _listeners (self w) → call cb (Some s) = Ok ()) →
       (_async_observe_status call s w).1 = Ok ()
       ∧ delivered call (Some s) (_listeners (self w)) = _listeners (self w)).
Proof.
  unfold _async_observe_status.
  set (w2 := timer_reset _).
  destruct (notify_trace (_listeners (self w2)) w2) as (Hs & Ht & Htr).
  simpl in *. rewrite Hs, Htr. simpl.
  split; [by rewrite <- !app_assoc|].
  split; [done|]. split; [done|]. split; [done|].
  intros Hok. by apply (notify_result (_listeners (self w2)) w2).
Qed.

End Observation.

(** C3, with listeners [1] and [2] registered and [1] raising: listener [2]
    is registered and is not called for the update. *)
Lemma observe_status_counterexample :
  let w := async_add_listener 2 (async_add_listener 1 (init 0)) in
  let w' := (_async_observe_status call_1_raises ∅ w).2 in
  _listeners (self w) = [1; 2]
  ∧ (_async_observe_status call_1_raises ∅ w).1 = Raise ValueError
  ∧ trace w' = trace w ++ [SetStatus ∅; TimerReset; Call 1 (Some ∅)]
  ∧ (∀ seen, Call 2 seen ∉ trace w').
Proof.
  split; [reflexivity|]. split; [reflexivity|]. split; [reflexivity|].
  intros seen Hin. cbn in Hin.
  repeat (apply elem_of_cons in Hin as [Hin|Hin]; [discriminate Hin|]).
  by apply elem_of_nil in Hin.
Qed.

(** ** At most one task of each kind *)

Lemma tasks_held_init (c0 : Client) : tasks_held (init c0).
Proof.
  repeat split; try done;
    intros t (c & Hl & _); simpl in Hl; by rewrite lookup_nil in Hl.
Qed.

Lemma tasks_held_same (w w' : World) :
  (∀ t, live is_observe w' t → live is_observe w t) →
  (∀ t, live is_reconnect w' t → live is_reconnect w t) →
  length (tasks w) ≤ length (tasks w') →
  _task (self w') = _task (self w) →
  _reconnect_task (self w') = _reconnect_task (self w) →
  tasks_held w → tasks_held w'.
Proof.
  intros Hlo Hlr Hlen Ht Hr (Ho & Hc & Hbo & Hbc). repeat split; intros t Hl.
  - rewrite Ht. by apply Ho, Hlo.
  - rewrite Hr. by apply Hc, Hlr.
  - rewrite Ht in Hl. apply Hbo in Hl. lia.
  - rewrite Hr in Hl. apply Hbc in Hl. lia.
Qed.

Lemma start_observing_trace (w : World) :
  trace (_start_observing w)
  = trace w ++ match _task (self w) with Some t => [TaskCancel t] | None => [] end
      ++ [TaskCreate (length (tasks w)) ObserveStatus; TimerReset].
Proof.
  destruct w as [[c st l [t|] rt d tm] ts tr];
    unfold _start_observing; simpl; rewrite ?length_alter, <- ?app_assoc; done.
Qed.

Lemma start_observing_fields (w : World) :
  let w' := _start_observing w in
  _task (self w') = Some (length (tasks w))
  ∧ live is_observe w' (length (tasks w))
  ∧ length (tasks w') = S (length (tasks w))
  ∧ _reconnect_task (self w') = _reconnect_task (self w)
  ∧ _listeners (self w') = _listeners (self w)
  ∧ client (self w') = client (self w)
  ∧ status (self w') = status (self w).
Proof.
  destruct w as [[c st l tk rt d tm] ts tr].
  unfold _start_observing, live; destruct tk as [t|]; simpl;
    rewrite ?length_app, ?length_alter; simpl.
  - repeat split; try done; try lia.
    rewrite <- (length_alter cancel_state ts t). by apply live_in_new.
  - repeat split; try done; try lia.
    by apply live_in_new.
Qed.

(** The tasks that are live after [_start_observing]: the new one, and
    those that were live before apart from the task that was held. *)
Lemma start_observing_live (k : coro → bool) (w : World) (t : nat) :
  live k (_start_observing w) t →
  (t = length (tasks w) ∧ k ObserveStatus = true)
  ∨ (live k w t ∧ _task (self w) ≠ Some t).
Proof.
  destruct w as [[c st l tk rt d tm] ts tr].
  unfold _start_observing, live; destruct tk as [t0|]; simpl; intros Hl.
  - apply live_in_snoc in Hl as [(Ht & _ & Hk)|Hl].
    + left. by rewrite length_alter in Ht.
    + right. apply live_in_alter_cancel in Hl as [Hne Hl].
      split; [exact Hl | congruence].
  - apply live_in_snoc in Hl as [(Ht & _ & Hk)|Hl].
    + by left.
    + right. split; [exact Hl | done].
Qed.

Lemma start_observing_held (w : World) :
  tasks_held w → tasks_held (_start_observing w).
Proof.
  intros (Ho & Hc & Hbo & Hbc).
  destruct (start_observing_fields w) as (Ht & _ & Hlen & Hr & _).
  repeat split; intros t Hl.
  - apply start_observing_live in Hl as [[-> _]|[Hl Hne]]; [done|].
    by apply Ho in Hl.
  - rewrite Hr. apply start_observing_live in Hl as [[_ ?]|[Hl _]]; [done|].
    by apply Hc.
  - rewrite Ht in Hl. simplify_eq. lia.
  - rewrite Hr in Hl. apply Hbc in Hl. lia.
Qed.

Lemma reconnect_trace (w : World) :
  trace (reconnect w)
  = trace w ++ match _reconnect_task (self w) with Some t => [TaskCancel t] | None => [] end
      ++ [TaskCreate (length (tasks w)) (DoReconnect AtClientShutdown)].
Proof.
  destruct w as [[c st l tk [t|] d tm] ts tr];
    unfold reconnect; simpl; rewrite ?length_alter, <- ?app_assoc; done.
Qed.

Lemma reconnect_fields (w : World) :
  let w' := reconnect w in
  _reconnect_task (self w') = Some (length (tasks w))
  ∧ live is_reconnect w' (length (tasks w))
  ∧ length (tasks w') = S (length (tasks w))
  ∧ _task (self w') = _task (self w)
  ∧ _listeners (self w') = _listeners (self w)
  ∧ _timer_disconnected (self w') = _timer_disconnected (self w).
Proof.
  destruct w as [[c st l tk rt d tm] ts tr].
  unfold reconnect, live; destruct rt as [t|]; simpl;
    rewrite ?length_app, ?length_alter; simpl.
  - repeat split; try done; try lia.
    rewrite <- (length_alter cancel_state ts t). by apply live_in_new.
  - repeat split; try done; try lia.
    by apply live_in_new.
Qed.

(** The tasks that are live after [reconnect]: the new one, and those that
    were live before apart from the reconnect task that was held. *)
Lemma reconnect_live (k : coro → bool) (w : World) (t : nat) :
  live k (reconnect w) t →
  (t = length (tasks w) ∧ k (DoReconnect AtClientShutdown) = true)
  ∨ (live k w t ∧ _reconnect_task (self w) ≠ Some t).
Proof.
  destruct w as [[c st l tk rt d tm] ts tr].
  unfold reconnect, live; destruct rt as [t0|]; simpl; intros Hl.
  - apply live_in_snoc in Hl as [(Ht & _ & Hk)|Hl].
    + left. by rewrite length_alter in Ht.
    + right. apply live_in_alter_cancel in Hl as [Hne Hl].
      split; [exact Hl | congruence].
  - apply live_in_snoc in Hl as [(Ht & _ & Hk)|Hl].
    + by left.
    + right. split; [exact Hl | done].
Qed.

Lemma reconnect_held (w : World) :
  tasks_held w → tasks_held (reconnect w).
Proof.
  intros (Ho & Hc & Hbo & Hbc).
  destruct (reconnect_fields w) as (Hr & _ & Hlen & Ht & _).
  repeat split; intros t Hl.
  - rewrite Ht. apply reconnect_live in Hl as [[_ ?]|[Hl _]]; [done|].
    by apply Ho.
  - apply reconnect_live in Hl as [[-> _]|[Hl Hne]]; [done|].
    by apply Hc in Hl.
  - rewrite Ht in Hl. apply Hbo in Hl. lia.
  - rewrite Hr in Hl. simplify_eq. lia.
Qed.

Lemma add_listener_held (cb : CALLBACK_TYPE) (w : World) :
  tasks_held w → tasks_held (async_add_listener cb w).
Proof.
  intros Hw. unfold async_add_listener.
  case_bool_decide; [|exact Hw].
  apply start_observing_held. exact Hw.
Qed.

Lemma remove_listener_held (cb : CALLBACK_TYPE) (w : World) :
  tasks_held w → tasks_held (async_remove_listener cb w).2.
Proof.
  intros Hw. unfold async_remove_listener.
  destruct (list_remove cb (_listeners (self w))) as [l'|]; [|exact Hw].
  destruct w as [[c st l tk rt d tm] ts tr]; simpl.
  destruct l' as [|x l']; [destruct tk as [t|]|]; simpl; try exact Hw.
  destruct Hw as (Ho & Hc & Hbo & Hbc). unfold live in *; simpl in *.
  repeat split; simpl; intros t' Hl.
  - apply live_in_alter_cancel in Hl as [Hne Hl]. apply Ho in Hl. congruence.
  - apply live_in_alter_cancel in Hl as [_ Hl]. by apply Hc.
  - done.
  - rewrite length_alter. by apply Hbc.
Qed.

Lemma first_refresh_held (r : result (DeviceStatus * Z)) (w : World) :
  tasks_held w → tasks_held (async_first_refresh r w).2.
Proof. destruct r as [[s d]|e]; intros Hw; exact Hw. Qed.

Lemma shutdown_held (r : result unit) (w : World) :
  tasks_held w → tasks_held (shutdown r w).2.
Proof.
  destruct w as [[c st l tk rt d tm] ts tr].
  unfold shutdown; destruct rt as [t|]; simpl; intros Hw; [|exact Hw].
  destruct Hw as (Ho & Hc & Hbo & Hbc). unfold live in *; simpl in *.
  repeat split; simpl; intros t' Hl.
  - apply live_in_alter_cancel in Hl as [_ Hl]. by apply Ho.
  - apply live_in_alter_cancel in Hl as [_ Hl]. by apply Hc.
  - rewrite length_alter. by apply Hbo.
  - rewrite length_alter. by apply Hbc.
Qed.

Lemma task_finish_held (t : nat) (w : World) :
  tasks_held w → tasks_held (task_finish t w).
Proof.
  destruct w as [[c st l tk rt d tm] ts tr].
  intros (Ho & Hc & Hbo & Hbc). unfold live, task_finish in *; simpl in *.
  repeat split; simpl; intros t' Hl.
  - apply live_in_alter_finish in Hl as [_ Hl]. by apply Ho.
  - apply live_in_alter_finish in Hl as [_ Hl]. by apply Hc.
  - rewrite length_alter. by apply Hbo.
  - rewrite length_alter. by apply Hbc.
Qed.

Lemma live_in_insert (k : coro → bool) (ts : list Task) (t t' : nat) (c c' : coro) :
  ts !! t = Some (mkTask c Pending) → k c' = k c →
  live_in k (<[t := mkTask c' Pending]> ts) t' → live_in k ts t'.
Proof.
  intros Ht Hk (c1 & Hl & Hk1).
  destruct (decide (t = t')) as [<-|Hne].
  - rewrite list_lookup_insert_eq in Hl by (by eapply lookup_lt_Some).
    simplify_eq. exists c. split; [done | congruence].
  - rewrite list_lookup_insert_ne in Hl by done. by exists c1.
Qed.

Section Reachable.

Variable call : CALLBACK_TYPE → option DeviceStatus → result unit.

Lemma notify_held (l : list CALLBACK_TYPE) (w : World) :
  tasks_held w → tasks_held (notify call l w).2.
Proof.
  intros Hw. destruct (notify_trace call l w) as (Hs & Ht & _).
  unfold tasks_held, live in *. by rewrite Hs, Ht.
Qed.

Lemma observe_status_held (s : DeviceStatus) (w : World) :
  tasks_held w → tasks_held (_async_observe_status call s w).2.
Proof. intros Hw. unfold _async_observe_status. by apply notify_held. Qed.

Lemma reconnect_shutdown_held (t : nat) (r : result unit) (w : World) :
  suspended t (DoReconnect AtClientShutdown) w = true →
  tasks_held w → tasks_held (_reconnect_shutdown t r w).
Proof.
  unfold suspended. intros Hs%bool_decide_eq_true (Ho & Hc & Hbo & Hbc).
  unfold tasks_held, live, _reconnect_shutdown in *; simpl in *.
  repeat split; intros t' Hl.
  - eapply live_in_insert in Hl; [by apply Ho | exact Hs | done].
  - eapply live_in_insert in Hl; [by apply Hc | exact Hs | done].
  - rewrite length_insert. by apply Hbo.
  - rewrite length_insert. by apply Hbc.
Qed.

Lemma reconnect_create_held (t : nat) (r : result Client) (w : World) :
  tasks_held w → tasks_held (_reconnect_create t r w).
Proof.
  intros Hw. unfold _reconnect_create. destruct r as [c|e].
  - apply task_finish_held, start_observing_held. exact Hw.
  - apply task_finish_held. exact Hw.
Qed.

Lemma step_held (e : event) (w : World) :
  tasks_held w → tasks_held (step call e w).
Proof.
  intros Hw. destruct e as [r|cb|cb| | |r|t s|t|t r|t r]; unfold step.
  - exact (first_refresh_held r w Hw).
  - exact (add_listener_held cb w Hw).
  - exact (remove_listener_held cb w Hw).
  - exact (reconnect_held w Hw).
  - destruct (Timer.countdown _); [|done].
    exact (reconnect_held w Hw).
  - exact (shutdown_held r w Hw).
  - destruct (suspended _ _ _); [|done].
    pose proof (observe_status_held s w Hw) as Hw'.
    destruct (_async_observe_status call s w) as [[[]|ex] w']; simpl in *; [done|].
    by apply task_finish_held.
  - destruct (suspended _ _ _); [|done]. by apply task_finish_held.
  - destruct (suspended _ _ _) eqn:Hs; [|done].
    exact (reconnect_shutdown_held t r w Hs Hw).
  - destruct (suspended _ _ _); [|done]. by apply reconnect_create_held.
Qed.

Lemma run_held (es : list event) (w : World) :
  tasks_held w → tasks_held (run call es w).
Proof.
  revert w. induction es as [|e es IH]; intros w Hw; [done|].
  simpl. by apply IH, step_held.
Qed.

Lemma run_app (es es' : list event) (w : World) :
  run call (es ++ es') w = run call es' (run call es w).
Proof. unfold run. by rewrite foldl_app. Qed.

(** After one or more [async_add_listener] from a state without listeners,
    the effects are those of the one [_start_observing] of the first. *)
Lemma add_listeners_from_empty (cbs : list CALLBACK_TYPE) (cb : CALLBACK_TYPE) (w : World) :
  _listeners (self w) = [] →
  let w' := run call (EvAddListener <$> (cb :: cbs)) w in
  trace w' = trace (_start_observing w)
  ∧ tasks w' = tasks (_start_observing w)
  ∧ _task (self w') = _task (self (_start_observing w))
  ∧ _reconnect_task (self w') = _reconnect_task (self (_start_observing w))
  ∧ _listeners (self w') = cb :: cbs.
Proof.
  intros Hl.
  induction cbs as [|x cbs IH] using rev_ind.
  - simpl. unfold async_add_listener. rewrite Hl. simpl.
    destruct w as [[c st l tk rt d tm] ts tr]; simpl in *; subst.
    unfold _start_observing; destruct tk; simpl; done.
  - intros w'. subst w'.
    rewrite app_comm_cons, fmap_app, run_app.
    destruct IH as (Htr & Hts & Ht & Hr & Hls).
    set (w1 := run call _ w) in *.
    change (run call (EvAddListener <$> [x]) w1) with (async_add_listener x w1).
    unfold async_add_listener. rewrite Hls.
    rewrite bool_decide_eq_false_2 by done.
    cbn [upd set_listeners trace tasks self _task _reconnect_task _listeners].
    by rewrite Htr, Hts, Ht, Hr.
Qed.

End Reachable.

(** ** The kinds of the tasks held *)

Lemma kind_at_alter (k : coro → bool) (f : Task → Task) (ts : list Task) (t t' : nat) :
  (∀ x, t_coro (f x) = t_coro x) →
  kind_at k ts t' → kind_at k (alter f t ts) t'.
Proof.
  intros Hf (x & Hl & Hk).
  destruct (decide (t = t')) as [<-|Hne].
  - exists (f x). rewrite list_lookup_alter_eq, Hl. by rewrite Hf.
  - exists x. by rewrite list_lookup_alter_ne.
Qed.

Lemma cancel_state_coro (x : Task) : t_coro (cancel_state x) = t_coro x.
Proof. by destruct x as [c []]. Qed.

Lemma kind_at_snoc (k : coro → bool) (ts : list Task) (x : Task) (t : nat) :
  kind_at k ts t → kind_at k (ts ++ [x]) t.
Proof. intros (y & Hl & Hk). exists y. split; [|done]. by apply lookup_app_l_Some. Qed.

Lemma kind_at_new (k : coro → bool) (ts : list Task) (x : Task) :
  k (t_coro x) = true → kind_at k (ts ++ [x]) (length ts).
Proof.
  intros Hk. exists x. split; [|done].
  rewrite lookup_app_r by lia. by rewrite Nat.sub_diag.
Qed.

Lemma kind_at_insert (k : coro → bool) (ts : list Task) (t t' : nat) (x y : Task) :
  ts !! t = Some x → k (t_coro y) = k (t_coro x) →
  kind_at k ts t' → kind_at k (<[t := y]> ts) t'.
Proof.
  intros Ht Hk (z & Hl & Hz).
  destruct (decide (t = t')) as [<-|Hne].
  - exists y. rewrite list_lookup_insert_eq by (by eapply lookup_lt_Some).
    split; [done|]. simplify_eq. congruence.
  - exists z. by rewrite list_lookup_insert_ne.
Qed.

Lemma handles_typed_init (c0 : Client) : handles_typed (init c0).
Proof. split; intros t Ht; discriminate Ht. Qed.

Lemma start_observing_typed (w : World) :
  handles_typed w → handles_typed (_start_observing w).
Proof.
  destruct w as [[c st l tk rt d tm] ts tr]. intros [Ho Hc].
  unfold handles_typed, _start_observing in *; destruct tk as [t0|]; simpl in *.
  - split; intros t Ht; simplify_eq.
    + by apply kind_at_new.
    + by apply kind_at_snoc, kind_at_alter; [apply cancel_state_coro | apply Hc].
  - split; intros t Ht; simplify_eq.
    + by apply kind_at_new.
    + by apply kind_at_snoc, Hc.
Qed.

Lemma reconnect_typed (w : World) :
  handles_typed w → handles_typed (reconnect w).
Proof.
  destruct w as [[c st l tk rt d tm] ts tr]. intros [Ho Hc].
  unfold handles_typed, reconnect in *; destruct rt as [t0|]; simpl in *.
  - split; intros t Ht; simplify_eq.
    + by apply kind_at_snoc, kind_at_alter; [apply cancel_state_coro | apply Ho].
    + by apply kind_at_new.
  - split; intros t Ht; simplify_eq.
    + by apply kind_at_snoc, Ho.
    + by apply kind_at_new.
Qed.

Lemma add_listener_typed (cb : CALLBACK_TYPE) (w : World) :
  handles_typed w → handles_typed (async_add_listener cb w).
Proof.
  intros Hw. unfold async_add_listener.
  case_bool_decide; [|exact Hw].
  apply start_observing_typed. exact Hw.
Qed.

Lemma remove_listener_typed (cb : CALLBACK_TYPE) (w : World) :
  handles_typed w → handles_typed (async_remove_listener cb w).2.
Proof.
  intros Hw. unfold async_remove_listener.
  destruct (list_remove cb (_listeners (self w))) as [l'|]; [|exact Hw].
  destruct w as [[c st l tk rt d tm] ts tr]; simpl.
  destruct l' as [|x l']; [destruct tk as [t|]|]; simpl; try exact Hw.
  destruct Hw as [Ho Hc]. split; simpl in *; intros t' Ht; [done|].
  by apply kind_at_alter; [apply cancel_state_coro | apply Hc].
Qed.

Lemma first_refresh_typed (r : result (DeviceStatus * Z)) (w : World) :
  handles_typed w → handles_typed (async_first_refresh r w).2.
Proof. destruct r as [[s d]|e]; intros Hw; exact Hw. Qed.

Lemma shutdown_typed (r : result unit) (w : World) :
  handles_typed w → handles_typed (shutdown r w).2.
Proof.
  destruct w as [[c st l tk rt d tm] ts tr].
  unfold shutdown; destruct rt as [t|]; simpl; intros Hw; [|exact Hw].
  destruct Hw as [Ho Hc]. split; simpl in *; intros t' Ht.
  - by apply kind_at_alter; [apply cancel_state_coro | apply Ho].
  - by apply kind_at_alter; [apply cancel_state_coro | apply Hc].
Qed.

Lemma task_finish_typed (t : nat) (w : World) :
  handles_typed w → handles_typed (task_finish t w).
Proof.
  destruct w as [[c st l tk rt d tm] ts tr].
  intros [Ho Hc]. split; simpl in *; intros t' Ht.
  - by apply kind_at_alter; [done | apply Ho].
  - by apply kind_at_alter; [done | apply Hc].
Qed.

Section Typed.

Variable call : CALLBACK_TYPE → option DeviceStatus → result unit.

Lemma step_typed (e : event) (w : World) :
  handles_typed w → handles_typed (step call e w).
Proof.
  intros Hw. destruct e as [r|cb|cb| | |r|t s|t|t r|t r]; unfold step.
  - exact (first_refresh_typed r w Hw).
  - exact (add_listener_typed cb w Hw).
  - exact (remove_listener_typed cb w Hw).
  - exact (reconnect_typed w Hw).
  - destruct (Timer.countdown _); [|done].
    exact (reconnect_typed w Hw).
  - exact (shutdown_typed r w Hw).
  - destruct (suspended _ _ _); [|done].
    unfold _async_observe_status.
    set (w2 := timer_reset _).
    assert (handles_typed w2) as Hw2 by exact Hw.
    destruct (notify_trace call (_listeners (self w2)) w2) as (Hs & Ht & _).
    assert (handles_typed (notify call (_listeners (self w2)) w2).2) as Hw'.
    { unfold handles_typed in *. by rewrite Hs, Ht. }
    destruct (notify call (_listeners (self w2)) w2) as [[[]|ex] w']; simpl in *; [done|].
    by apply task_finish_typed.
  - destruct (suspended _ _ _); [|done]. by apply task_finish_typed.
  - destruct (suspended _ _ _) eqn:Hsus; [|done].
    unfold suspended in Hsus. apply bool_decide_eq_true in Hsus.
    destruct Hw as [Ho Hc]. unfold _reconnect_shutdown. split; simpl; intros t' Ht.
    + eapply kind_at_insert; [exact Hsus | done | by apply Ho].
    + eapply kind_at_insert; [exact Hsus | done | by apply Hc].
  - destruct (suspended _ _ _); [|done].
    unfold _reconnect_create. destruct r as [c|ex].
    + apply task_finish_typed, start_observing_typed. exact Hw.
    + apply task_finish_typed. exact Hw.
Qed.

Lemma run_typed (es : list event) (w : World) :
  handles_typed w → handles_typed (run call es w).
Proof.
  revert w. induction es as [|e es IH]; intros w Hw; [done|].
  simpl. by apply IH, step_typed.
Qed.

End Typed.

(** ** One observation task, one reconnect task, shutdown *)

Section Tasks.

Variable call : CALLBACK_TYPE → option DeviceStatus → result unit.

Lemma reachable_held (c0 : Client) (es : list event) :
  tasks_held (run call es (init c0)).
Proof. apply run_held, tasks_held_init. Qed.

Lemma start_observing_only_live (w : World) (t : nat) :
  tasks_held w →
  live is_observe (_start_observing w) t ↔ t = length (tasks w).
Proof.
  intros (Ho & _). split.
  - intros Hl. apply start_observing_live in Hl as [[-> _]|[Hl Hne]]; [done|].
    by apply Ho in Hl.
  - intros ->. apply start_observing_fields.
Qed.

(** C6: in every state the coordinator reaches, at most one observation
    task is live.  [_start_observing] cancels the task held (if any), then
    creates the new task, then resets the timer; afterwards the new task is
    held and is the only live observation task.  One or more calls of
    [async_add_listener] from a state without listeners create one
    observation task, the only one live afterwards. *)
Theorem one_observation_task (c0 : Client) (es : list event) :
  let w := run call es (init c0) in
  let t' := length (tasks w) in
  let cancelled :=
    match _task (self w) with Some t => [TaskCancel t] | None => [] end in
  (∀ t1 t2, live is_observe w t1 → live is_observe w t2 → t1 = t2)
  ∧ (let w' := _start_observing w in
     trace w' = trace w ++ cancelled ++ [TaskCreate t' ObserveStatus; TimerReset]
     ∧ _task (self w') = Some t'
     ∧ (∀ t, live is_observe w' t ↔ t = t')
     ∧ (∀ t, _task (self w) = Some t → ¬ live is_observe w' t)
     ∧ Timer.countdown (_timer_disconnected (self w'))
       = Some (Timer.timeout (_timer_disconnected (self w))))
  ∧ (_listeners (self w) = [] →
     ∀ cb cbs,
       let w' := run call (EvAddListener <$> (cb :: cbs)) w in
       trace w' = trace w ++ cancelled ++ [TaskCreate t' ObserveStatus; TimerReset]
       ∧ length (tasks w') = S (length (tasks w))
       ∧ _task (self w') = Some t'
       ∧ (∀ t, live is_observe w' t ↔ t = t')).
Proof.
  intros w t' cancelled.
  pose proof (reachable_held c0 es) as Hw. fold w in Hw. clearbody w.
  subst t' cancelled.
  destruct (start_observing_fields w) as (Ht & Hlive & Hlen & _).
  split; [|split].
  - destruct Hw as (Ho & _). intros t1 t2 H1%Ho H2%Ho. congruence.
  - split; [apply start_observing_trace|]. split; [exact Ht|].
    split; [intros t; by apply start_observing_only_live|]. split.
    + intros t Hheld Hl. apply start_observing_only_live in Hl; [|done].
      destruct Hw as (_ & _ & Hbo & _). apply Hbo in Hheld. lia.
    + destruct w as [[c st l [t0|] rt d tm] ts tr]; done.
  - intros Hnil cb cbs.
    destruct (add_listeners_from_empty call cbs cb w Hnil)
      as (Htr & Hts & Htk & _).
    cbv zeta. rewrite Htr, Hts, Htk.
    split; [apply start_observing_trace|]. split; [exact Hlen|].
    split; [exact Ht|].
    intros t. unfold live. rewrite Hts. by apply start_observing_only_live.
Qed.

(** C7: in every state the coordinator reaches, at most one reconnect task
    is live.  [reconnect] cancels the reconnect task held (if any) and then
    creates a new one; afterwards the new task is the one held and the only
    live reconnect task, and the task held before is not live. *)
Theorem one_reconnect_task (c0 : Client) (es : list event) :
  let w := run call es (init c0) in
  let t' := length (tasks w) in
  let cancelled :=
    match _reconnect_task (self w) with Some t => [TaskCancel t] | None => [] end in
  (∀ t1 t2, live is_reconnect w t1 → live is_reconnect w t2 → t1 = t2)
  ∧ (let w' := reconnect w in
     trace w' = trace w ++ cancelled ++ [TaskCreate t' (DoReconnect AtClientShutdown)]
     ∧ _reconnect_task (self w') = Some t'
     ∧ (∀ t, live is_reconnect w' t ↔ t = t')
     ∧ (∀ t, _reconnect_task (self w) = Some t → ¬ live is_reconnect w' t)).
Proof.
  intros w t' cancelled.
  pose proof (reachable_held c0 es) as Hw. fold w in Hw. clearbody w.
  subst t' cancelled.
  destruct (reconnect_fields w) as (Hr & Hlive & Hlen & _).
  destruct Hw as (_ & Hc & _ & Hbc).
  assert (∀ t, live is_reconnect (reconnect w) t ↔ t = length (tasks w)) as Honly.
  { intros t. split; [|by intros ->].
    intros Hl. apply reconnect_live in Hl as [[-> _]|[Hl Hne]]; [done|].
    by apply Hc in Hl. }
  split.
  - intros t1 t2 H1%Hc H2%Hc. congruence.
  - split; [apply reconnect_trace|]. split; [exact Hr|]. split; [exact Honly|].
    intros t Hheld Hl. apply Honly in Hl. apply Hbc in Hheld. lia.
Qed.

(** C8, as amended: [shutdown] cancels the reconnect task held (if any),
    then cancels the timer, then closes the client, and returns or raises
    as the client's [shutdown] does; it does not cancel the observation
    task, which stays held and, if it was live, live.  Before any refresh it
    cancels the timer and closes the client. *)
Theorem shutdown_effects (c0 : Client) (es : list event) (r : result unit) :
  let w := run call es (init c0) in
  let w' := (shutdown r w).2 in
  (shutdown r w).1 = r
  ∧ trace w' = trace w
        ++ match _reconnect_task (self w) with Some t => [TaskCancel t] | None => [] end
        ++ [TimerCancel; ClientShutdown (client (self w))]
  ∧ (∀ t, _reconnect_task (self w) = Some t → ¬ live is_reconnect w' t)
  ∧ (∀ t, ¬ live is_reconnect w' t)
  ∧ Timer.countdown (_timer_disconnected (self w')) = None
  ∧ _task (self w') = _task (self w)
  ∧ (∀ t, live is_observe w' t ↔ live is_observe w t)
  ∧ shutdown r (init c0)
    = (r, mkWorld (upd (set_timer Timer.cancel) (init c0)).(self) []
            [TimerCancel; ClientShutdown c0]).
Proof.
  intros w w'.
  pose proof (reachable_held c0 es) as Hw.
  pose proof (run_typed call es (init c0) (handles_typed_init c0)) as Hty.
  fold w in Hw, Hty. subst w'. clearbody w.
  destruct w as [[c st l tk rt d tm] ts tr].
  destruct Hw as (Ho & Hc & Hbo & Hbc). destruct Hty as [Hto Htc].
  unfold shutdown, live in *; simpl in *.
  assert (∀ t, ¬ live_in is_reconnect
                 (tasks match rt with
                        | Some t0 => task_cancel t0 (mkWorld
                            (mkCoordinator c st l tk rt d tm) ts tr)
                        | None => mkWorld (mkCoordinator c st l tk rt d tm) ts tr
                        end) t) as Hnone.
  { intros t Hl. destruct rt as [t0|]; simpl in Hl.
    - apply live_in_alter_cancel in Hl as [Hne Hl]. apply Hc in Hl. congruence.
    - by apply Hc in Hl. }
  split; [done|]. split.
  { destruct rt; simpl; by rewrite <- ?app_assoc. }
  split; [intros t _; apply Hnone|]. split; [exact Hnone|].
  split; [by destruct rt|]. split; [by destruct rt|]. split; [|done].
  intros t. destruct rt as [t0|]; simpl; [|done]. split.
  - by intros [_ Hl]%live_in_alter_cancel.
  - intros (x & Hl & Hk).
    destruct (decide (t = t0)) as [->|Hne].
    + destruct (Htc t0 eq_refl) as (y & Hy & Hky). simplify_eq/=.
      by destruct x.
    + exists x. by rewrite list_lookup_alter_ne.
Qed.

End Tasks.

(** C8, with one listener registered: the observation task is held and live
    before [shutdown] and still held and live after it, and [shutdown]
    cancels no task. *)
Lemma shutdown_counterexample :
  let w := run call_ok [EvAddListener 1] (init 0) in
  let w' := (shutdown (Ok ()) w).2 in
  _task (self w) = Some 0
  ∧ live is_observe w 0
  ∧ _task (self w') = Some 0
  ∧ live is_observe w' 0
  ∧ trace w' = trace w ++ [TimerCancel; ClientShutdown 0].
Proof.
  cbv zeta. split; [reflexivity|]. split; [by exists ObserveStatus|].
  split; [reflexivity|]. split; [by exists ObserveStatus | reflexivity].
Qed.

(** ** The control surfaces *)


Section Control.

Variable int_of_str : string → option Z.

(** C9, as amended: when the client's call raises [ex], the humidifier's
    [async_turn_on], [async_turn_off] and [async_set_humidity] raise [ex] to
    their caller and leave the cached status as it was (with [_switch]
    unset, turning on or off calls no client and returns);
    [async_set_humidity] never returns normally then.  The filter reset
    button's [async_press] catches [ex], logs it and returns normally. *)
Theorem control_failure (ex : exn) (w : World) :
  (∀ h, Humidifier._switch h = true →
     let w' := (Humidifier.async_turn_on h (Raise ex) w).2 in
     (Humidifier.async_turn_on h (Raise ex) w).1 = Raise ex
     ∧ self w' = self w
     ∧ trace w' = trace w ++ [SetControlValues (client (self w))
                  (<[Humidifier._function_key h := Humidifier.HUMIDIFYING h]>
                     {[ Humidifier._power_key h := Humidifier.ON h ]})])
  ∧ (∀ h, Humidifier._switch h = true →
     let w' := (Humidifier.async_turn_off h (Raise ex) w).2 in
     (Humidifier.async_turn_off h (Raise ex) w).1 = Raise ex
     ∧ self w' = self w
     ∧ trace w' = trace w ++ [SetControlValues (client (self w))
                  {[ Humidifier._function_key h := Humidifier.IDLE h ]}])
  ∧ (∀ h r, Humidifier._switch h = false →
     Humidifier.async_turn_on h r w = (Ok (), w)
     ∧ Humidifier.async_turn_off h r w = (Ok (), w))
  ∧ (∀ h humidity,
     let w' := (Humidifier.async_set_humidity int_of_str h humidity (Raise ex) w).2 in
     (Humidifier.async_set_humidity int_of_str h humidity (Raise ex) w).1 ≠ Ok ()
     ∧ self w' = self w
     ∧ (∀ n d c,
          Humidifier.int int_of_str (Some humidity) = Ok n →
          status (self w) = Some d →
          Humidifier.int int_of_str (d !! Humidifier._humidity_target_key h) = Ok c →
          Humidifier.STEP h ≠ 0%Z →
          (Humidifier.async_set_humidity int_of_str h humidity (Raise ex) w).1 = Raise ex))
  ∧ (∀ b,
     let w' := (Button.async_press b (Raise ex) w).2 in
     (Button.async_press b (Raise ex) w).1 = Ok ()
     ∧ self w' = self w
     ∧ (∀ d, status (self w) = Some d →
          trace w' = trace w ++ [SetControlValue (client (self w)) (Button._filter_type b)
                                   (d !! Button.TOTAL b);
                                 LogError ex])).
Proof.
  split; [|split; [|split; [|split]]].
  - intros h Hs. unfold Humidifier.async_turn_on. by rewrite Hs.
  - intros h Hs. unfold Humidifier.async_turn_off. by rewrite Hs.
  - intros h r Hs. unfold Humidifier.async_turn_on, Humidifier.async_turn_off.
    by rewrite Hs.
  - intros h humidity.
    unfold Humidifier.async_set_humidity, Humidifier.target_humidity, device_status_get.
    split; [|split].
    + destruct (Humidifier.int int_of_str (Some humidity)); [|done].
      destruct (status (self w)); [|done].
      destruct (Humidifier.int int_of_str _); [|done].
      by case_decide.
    + destruct (Humidifier.int int_of_str (Some humidity)); [|done].
      destruct (status (self w)); [|done].
      destruct (Humidifier.int int_of_str _); [|done].
      by case_decide.
    + intros n d c -> -> -> Hstep. by rewrite decide_False.
  - intros b. unfold Button.async_press, device_status_get.
    destruct (status (self w)) as [d|]; simpl; [|done].
    repeat split. intros d' [= <-]. by rewrite <- app_assoc.
Qed.


End Control.

(** C9, at the reset of filter ["fltsts0"] with a client that raises: the
    press returns normally, the failure is only logged. *)
Lemma press_counterexample :
  let ex := ClientError "unreachable" in
  let w' := (Button.async_press button_fltsts0 (Raise ex) world_rhset_50).2 in
  (Button.async_press button_fltsts0 (Raise ex) world_rhset_50).1 = Ok ()
  ∧ trace w' = trace world_rhset_50
                 ++ [SetControlValue 0 "fltsts0" None; LogError ex].
Proof. split; reflexivity. Qed.


(** ** Further facts *)

(** A reconnect that completes while no listener is registered leaves a
    live observation task: observation without listeners is possible once
    the timer or the host calls [reconnect]. *)
Lemma reconnect_observes_without_listeners :
  let w := run call_ok
             [EvReconnect; EvReconnectShutdown 0 (Ok ()); EvReconnectCreate 0 (Ok 1)]
             (init 0) in
  _listeners (self w) = []
  ∧ client (self w) = 1
  ∧ observing w
  ∧ trace w = [TaskCreate 0 (DoReconnect AtClientShutdown); ClientShutdown 0;
               ClientCreated 1; TaskCreate 1 ObserveStatus; TimerReset].
Proof.
  cbv zeta. split; [reflexivity|]. split; [reflexivity|]. split; [|reflexivity].
  exists 1. split; [reflexivity|]. by exists ObserveStatus.
Qed.

(** The expiry of the timer calls [reconnect] and, the timer restarting
    itself, leaves a countdown of the timer's duration running. *)
Lemma timer_expiry_reconnects (c0 : Client) :
  let w := step call_ok EvTimerExpired (init c0) in
  _reconnect_task (self w) = Some 0
  ∧ live is_reconnect w 0
  ∧ Timer.countdown (_timer_disconnected (self w)) = Some 180%Z.
Proof.
  cbv zeta. split; [reflexivity|]. split; [|reflexivity].
  by exists (DoReconnect AtClientShutdown).
Qed.

(** [round_div] on halves, as Python's [round] on [4.5], [5.5], [-4.5],
    [2.5] and on [45 / -10]. *)
Lemma round_div_halves :
  round_div 45 10 = 4%Z
  ∧ round_div 55 10 = 6%Z
  ∧ round_div (-45) 10 = (-4)%Z
  ∧ round_div 25 10 = 2%Z
  ∧ round_div 45 (-10) = (-4)%Z
  ∧ round_div 44 10 = 4%Z
  ∧ round_div 46 10 = 5%Z.
Proof. repeat split. Qed.

(** * Further properties of the coordinator *)

(** ** What each event changes *)

Section Frame.

Variable call : CALLBACK_TYPE → option DeviceStatus → result unit.

Lemma start_observing_self (w : World) :
  self (_start_observing w)
  = set_timer Timer.reset (set_task (Some (length (tasks w))) (self w)).
Proof.
  destruct w as [[c st l [t|] rt d tm] ts tr];
    unfold _start_observing; simpl; by rewrite ?length_alter.
Qed.

Lemma reconnect_self (w : World) :
  self (reconnect w) = set_reconnect_task (Some (length (tasks w))) (self w).
Proof.
  destruct w as [[c st l tk [t|] d tm] ts tr];
    unfold reconnect; simpl; by rewrite ?length_alter.
Qed.

Lemma observe_status_self (s : DeviceStatus) (w : World) :
  self (_async_observe_status call s w).2
  = set_timer Timer.reset (set_status (Some s) (self w)).
Proof.
  unfold _async_observe_status.
  set (w2 := timer_reset _).
  by destruct (notify_trace call (_listeners (self w2)) w2) as (-> & _).
Qed.

Lemma observe_status_tasks (s : DeviceStatus) (w : World) :
  tasks (_async_observe_status call s w).2 = tasks w.
Proof.
  unfold _async_observe_status.
  set (w2 := timer_reset _).
  by destruct (notify_trace call (_listeners (self w2)) w2) as (_ & -> & _).
Qed.

Lemma status_step_self (t : nat) (s : DeviceStatus) (w : World) :
  suspended t ObserveStatus w = true →
  self (step call (EvStatus t s) w)
  = set_timer Timer.reset (set_status (Some s) (self w)).
Proof.
  intros Hs. unfold step. rewrite Hs.
  pose proof (observe_status_self s w) as Hself.
  by destruct (_async_observe_status call s w) as [[[]|ex] w'].
Qed.

(** The attributes after one event, event by event: the methods that do
    not run a listener are unfolded, the others go through the equations
    above. *)
Ltac frame_by_cases e w :=
  destruct e as [r|cb|cb| | |r|t s|t|t r|t r];
  [ destruct r as [[s d]|ex]; done
  | unfold step, async_add_listener; case_bool_decide; [|done];
    by rewrite start_observing_self
  | unfold step, async_remove_listener;
    destruct w as [[c st l tk rt d tm] ts tr]; simpl;
    destruct (list_remove cb l) as [l'|]; [|done];
    destruct l' as [|x l']; [destruct tk|]; done
  | unfold step; by rewrite reconnect_self
  | unfold step; destruct (Timer.countdown _); [|done];
    unfold upd; cbn [self]; by rewrite reconnect_self
  | unfold step, shutdown; by destruct (_reconnect_task (self w))
  | let Hs := fresh "Hs" in
    destruct (suspended t ObserveStatus w) eqn:Hs;
    [ by rewrite status_step_self | unfold step; by rewrite Hs ]
  | unfold step; by destruct (suspended _ _ _)
  | unfold step; by destruct (suspended _ _ _)
  | unfold step; destruct (suspended _ _ _); [|by destruct r];
    unfold _reconnect_create; destruct r as [c|ex]; [|done];
    unfold task_finish; cbn [self]; by rewrite start_observing_self ].

Lemma step_listeners (e : event) (w : World) :
  _listeners (self (step call e w))
  = match e with
    | EvAddListener cb => _listeners (self w) ++ [cb]
    | EvRemoveListener cb =>
        default (_listeners (self w)) (list_remove cb (_listeners (self w)))
    | _ => _listeners (self w)
    end.
Proof.
  frame_by_cases e w.
Qed.

Lemma step_status (e : event) (w : World) :
  status (self (step call e w))
  = match e with
    | EvFirstRefresh (Ok (s, _)) => Some s
    | EvStatus t s =>
        if suspended t ObserveStatus w then Some s else status (self w)
    | _ => status (self w)
    end.
Proof.
  frame_by_cases e w.
Qed.

Lemma step_client (e : event) (w : World) :
  client (self (step call e w))
  = match e with
    | EvReconnectCreate t (Ok c) =>
        if suspended t (DoReconnect AtClientCreate) w then c else client (self w)
    | _ => client (self w)
    end.
Proof.
  frame_by_cases e w.
Qed.

Lemma step_task (e : event) (w : World) :
  _task (self (step call e w))
  = match e with
    | EvAddListener cb =>
        if bool_decide (_listeners (self w) = []) then Some (length (tasks w))
        else _task (self w)
    | EvRemoveListener cb =>
        match list_remove cb (_listeners (self w)) with
        | Some [] => None
        | _ => _task (self w)
        end
    | EvReconnectCreate t (Ok c) =>
        if suspended t (DoReconnect AtClientCreate) w
        then Some (length (tasks w)) else _task (self w)
    | _ => _task (self w)
    end.
Proof.
  frame_by_cases e w.
Qed.

(** X9: the listener list changes by [async_add_listener], which appends,
    and by [async_remove_listener] only; the cached status by a successful
    first refresh and by a status update of a live observation task only;
    the client by the successful [CoAPClient.create] of a live reconnect
    task only.  In particular no reconnect, expiry or shutdown loses a
    listener or the cached status. *)
Theorem step_frame (e : event) (w : World) :
  let w' := step call e w in
  _listeners (self w')
  = match e with
    | EvAddListener cb => _listeners (self w) ++ [cb]
    | EvRemoveListener cb =>
        default (_listeners (self w)) (list_remove cb (_listeners (self w)))
    | _ => _listeners (self w)
    end
  ∧ status (self w')
    = match e with
      | EvFirstRefresh (Ok (s, _)) => Some s
      | EvStatus t s =>
          if suspended t ObserveStatus w then Some s else status (self w)
      | _ => status (self w)
      end
  ∧ client (self w')
    = match e with
      | EvReconnectCreate t (Ok c) =>
          if suspended t (DoReconnect AtClientCreate) w then c else client (self w)
      | _ => client (self w)
      end.
Proof.
  cbv zeta. split.
  - apply step_listeners.
  - split.
    + apply step_status.
    + apply step_client.
Qed.

Lemma step_status_is_Some (e : event) (w : World) :
  is_Some (status (self w)) → is_Some (status (self (step call e w))).
Proof.
  intros Hs. rewrite step_status.
  destruct e as [[[s d]|ex]|cb|cb| | |r|t s|t|t r|t r]; try done.
  by destruct (suspended _ _ _).
Qed.

(** X10: once a status is cached, a status is cached for good: no event
    sets [status] back to [None]. *)
Theorem status_stays (es : list event) (w : World) :
  is_Some (status (self w)) → is_Some (status (self (run call es w))).
Proof.
  revert w. induction es as [|e es IH]; intros w Hs; [done|].
  simpl. by apply IH, step_status_is_Some.
Qed.

(** ** The timer *)

Lemma step_timer_configured (e : event) (w : World) :
  timer_configured w → timer_configured (step call e w).
Proof.
  unfold timer_configured. intros [Ht Ha].
  destruct e as [r|cb|cb| | |r|t s|t|t r|t r].
  - destruct r as [[s d]|ex]; done.
  - unfold step, async_add_listener. case_bool_decide; [|done].
    by rewrite start_observing_self.
  - unfold step, async_remove_listener.
    destruct w as [[c st l tk rt d tm] ts tr]; simpl.
    destruct (list_remove cb l) as [l'|]; [|done].
    destruct l' as [|x l']; [destruct tk|]; done.
  - unfold step. by rewrite reconnect_self.
  - unfold step. destruct (Timer.countdown _); [|done].
    unfold upd. cbn [self]. rewrite reconnect_self. simpl.
    unfold Timer.fired. by rewrite Ha.
  - unfold step, shutdown. by destruct (_reconnect_task (self w)).
  - destruct (suspended t ObserveStatus w) eqn:Hs.
    + by rewrite status_step_self.
    + unfold step. by rewrite Hs.
  - unfold step. by destruct (suspended _ _ _).
  - unfold step. by destruct (suspended _ _ _).
  - unfold step. destruct (suspended _ _ _); [|done].
    unfold _reconnect_create. destruct r as [c|ex]; [|done].
    unfold task_finish. cbn [self]. by rewrite start_observing_self.
Qed.

Lemma run_timer_configured (es : list event) (w : World) :
  timer_configured w → timer_configured (run call es w).
Proof.
  revert w. induction es as [|e es IH]; intros w Hw; [done|].
  simpl. by apply IH, step_timer_configured.
Qed.

(** X3: in every state the coordinator reaches, the timer's duration is
    the stored interval times [MISSED_PACKAGE_COUNT] (60 until a refresh
    stores the device's own) and the timer restarts itself; so an expiry
    calls [reconnect], which holds a new live reconnect task, and leaves a
    countdown of three intervals running. *)
Theorem timer_follows_interval (c0 : Client) (es : list event) :
  let w := run call es (init c0) in
  let w' := step call EvTimerExpired w in
  Timer.timeout (_timer_disconnected (self w)) = (_timeout (self w) * 3)%Z
  ∧ Timer.auto_restart (_timer_disconnected (self w)) = true
  ∧ (is_Some (Timer.countdown (_timer_disconnected (self w))) →
       _reconnect_task (self w') = Some (length (tasks w))
       ∧ live is_reconnect w' (length (tasks w))
       ∧ Timer.countdown (_timer_disconnected (self w'))
         = Some (_timeout (self w) * 3)%Z)
  ∧ (Timer.countdown (_timer_disconnected (self w)) = None → w' = w).
Proof.
  intros w w'.
  assert (timer_configured w) as [Ht Ha] by (by apply run_timer_configured).
  subst w'. clearbody w.
  split; [exact Ht|]. split; [exact Ha|]. unfold step. split.
  - intros [n Hn]. rewrite Hn.
    destruct (reconnect_fields w) as (Hr & Hl & _ & _ & _ & Htm).
    split; [exact Hr|]. split; [exact Hl|].
    unfold upd, set_timer. cbn [self _timer_disconnected].
    rewrite Htm. unfold Timer.fired. rewrite Ha. simpl. by rewrite Ht.
  - by intros ->.
Qed.

End Frame.

(** ** The reconnect coroutine *)

Section Reconnecting.

Variable call : CALLBACK_TYPE → option DeviceStatus → result unit.

Lemma suspended_lookup (t : nat) (c : coro) (w : World) :
  suspended t c w = true ↔ tasks w !! t = Some (mkTask c Pending).
Proof. unfold suspended. apply bool_decide_eq_true. Qed.

(** X1: when [CoAPClient.create] returns a client to a live reconnect
    task, the coordinator takes the new client and starts observing, whether
    or not a listener is registered; listeners and cached status are kept,
    the timer is reset, and the reconnect task is over. *)
Theorem reconnect_restarts_observation (t : task_id) (c : Client) (w : World) :
  suspended t (DoReconnect AtClientCreate) w = true →
  let w' := step call (EvReconnectCreate t (Ok c)) w in
  client (self w') = c
  ∧ observing w'
  ∧ _task (self w') = Some (length (tasks w))
  ∧ _listeners (self w') = _listeners (self w)
  ∧ status (self w') = status (self w)
  ∧ tasks w' !! t = Some (mkTask (DoReconnect AtClientCreate) Done)
  ∧ Timer.countdown (_timer_disconnected (self w'))
    = Some (Timer.timeout (_timer_disconnected (self w)))
  ∧ trace w' = trace w ++ [ClientCreated c]
        ++ match _task (self w) with Some t0 => [TaskCancel t0] | None => [] end
        ++ [TaskCreate (length (tasks w)) ObserveStatus; TimerReset].
Proof.
  intros Hs. cbv zeta. unfold step. rewrite Hs.
  apply suspended_lookup in Hs.
  pose proof (lookup_lt_Some _ _ _ Hs) as Hlt.
  unfold _reconnect_create.
  set (w1 := emit (ClientCreated c) (upd (set_client c) w)).
  destruct (start_observing_fields w1) as (Htk & Hlive & Hlen & _ & Hls & Hcl & Hst).
  pose proof (start_observing_self w1) as Hself.
  pose proof (start_observing_trace w1) as Htr.
  unfold task_finish. cbn [self trace tasks].
  split; [by rewrite Hcl|]. split.
  { exists (length (tasks w)). split; [exact Htk|].
    unfold live in *. cbn [tasks].
    destruct Hlive as (c1 & Hl1 & Hk1). exists c1. split; [|done].
    rewrite list_lookup_alter_ne; [exact Hl1 | simpl; lia]. }
  split; [exact Htk|]. split; [by rewrite Hls|]. split; [by rewrite Hst|]. split.
  { rewrite list_lookup_alter_eq.
    destruct w as [[c0 st l tk rt d tm] ts tr]. subst w1.
    unfold _start_observing; destruct tk as [t0|]; simpl in *.
    - rewrite lookup_app_l by (rewrite length_alter; lia).
      destruct (decide (t0 = t)) as [->|Hne].
      + by rewrite list_lookup_alter_eq, Hs.
      + by rewrite list_lookup_alter_ne, Hs.
    - by rewrite lookup_app_l, Hs. }
  split; [by rewrite Hself|].
  rewrite Htr. subst w1. simpl. by rewrite <- !app_assoc.
Qed.

(** X4: a reconnect whose [CoAPClient.create] raises is swallowed: whatever
    the client's [shutdown] did, the coordinator's attributes (client,
    status, listeners, tasks held, timer) are as before, the error is
    logged, and the reconnect task is over; the observation task is not
    restarted. *)
Theorem reconnect_failure_swallowed (t : task_id) (r : result unit) (ex : exn)
    (w : World) :
  suspended t (DoReconnect AtClientShutdown) w = true →
  let w' := run call [EvReconnectShutdown t r; EvReconnectCreate t (Raise ex)] w in
  self w' = self w
  ∧ trace w' = trace w ++ [ClientShutdown (client (self w)); LogException ex]
  ∧ tasks w' = <[t := mkTask (DoReconnect AtClientCreate) Done]> (tasks w)
  ∧ ¬ live is_reconnect w' t
  ∧ (∀ t', live is_observe w' t' ↔ live is_observe w t').
Proof.
  intros Hs. cbv zeta. unfold run; simpl. rewrite Hs.
  apply suspended_lookup in Hs.
  pose proof (lookup_lt_Some _ _ _ Hs) as Hlt.
  assert (suspended t (DoReconnect AtClientCreate) (_reconnect_shutdown t r w) = true)
    as ->.
  { apply suspended_lookup. simpl. by rewrite list_lookup_insert_eq. }
  unfold _reconnect_create, _reconnect_shutdown, task_finish, live; simpl.
  assert (alter finish_state t
            (<[t := mkTask (DoReconnect AtClientCreate) Pending]> (tasks w))
          = <[t := mkTask (DoReconnect AtClientCreate) Done]> (tasks w)) as ->.
  { apply list_eq. intros i. destruct (decide (i = t)) as [->|Hne].
    - by rewrite list_lookup_alter_eq, !list_lookup_insert_eq.
    - by rewrite list_lookup_alter_ne, !list_lookup_insert_ne. }
  split; [done|]. split; [by rewrite <- app_assoc|]. split; [done|]. split.
  - intros (c & Hl & _). by rewrite list_lookup_insert_eq in Hl.
  - intros t'. unfold live_in. destruct (decide (t' = t)) as [->|Hne].
    + rewrite list_lookup_insert_eq, Hs by done.
      split; intros (c & Hl & Hk); simplify_eq/=.
    + by rewrite list_lookup_insert_ne.
Qed.

(** ** Tasks that are over *)

Lemma start_observing_lookup_over (w : World) (t : nat) (k : Task) :
  tasks w !! t = Some k → t_state k ≠ Pending →
  tasks (_start_observing w) !! t = Some k.
Proof.
  intros Hk Hover. pose proof (lookup_lt_Some _ _ _ Hk) as Hlt.
  destruct w as [[c st l tk rt d tm] ts tr].
  unfold _start_observing; destruct tk as [t0|]; simpl in *.
  - rewrite lookup_app_l by (rewrite length_alter; lia).
    destruct (decide (t0 = t)) as [->|Hne].
    + rewrite list_lookup_alter_eq, Hk. simpl. f_equal.
      unfold cancel_state. by destruct k as [c1 []].
    + by rewrite list_lookup_alter_ne.
  - by rewrite lookup_app_l.
Qed.

Lemma task_cancel_lookup_over (w : World) (t t0 : nat) (k : Task) :
  tasks w !! t = Some k → t_state k ≠ Pending →
  tasks (task_cancel t0 w) !! t = Some k.
Proof.
  intros Hk Hover. unfold task_cancel; simpl.
  destruct (decide (t0 = t)) as [->|Hne].
  - rewrite list_lookup_alter_eq, Hk. simpl. f_equal.
    unfold cancel_state. by destruct k as [c1 []].
  - by rewrite list_lookup_alter_ne.
Qed.

Lemma reconnect_lookup_over (w : World) (t : nat) (k : Task) :
  tasks w !! t = Some k → t_state k ≠ Pending →
  tasks (reconnect w) !! t = Some k.
Proof.
  intros Hk Hover. pose proof (lookup_lt_Some _ _ _ Hk) as Hlt.
  pose proof (task_cancel_lookup_over w t) as Hc.
  destruct w as [[c st l tk rt d tm] ts tr].
  unfold reconnect; destruct rt as [t0|]; simpl in *.
  - rewrite lookup_app_l by (rewrite length_alter; lia). by apply Hc.
  - by rewrite lookup_app_l.
Qed.

Lemma suspended_not_over (w : World) (t t0 : nat) (c : coro) (k : Task) :
  tasks w !! t = Some k → t_state k ≠ Pending →
  suspended t0 c w = true → t0 ≠ t.
Proof.
  intros Hk Hover Hs%suspended_lookup ->. rewrite Hk in Hs. by simplify_eq.
Qed.

Lemma step_lookup_over (e : event) (w : World) (t : nat) (k : Task) :
  tasks w !! t = Some k → t_state k ≠ Pending →
  tasks (step call e w) !! t = Some k.
Proof.
  intros Hk Hover.
  destruct e as [r|cb|cb| | |r|t0 s|t0|t0 r|t0 r]; unfold step.
  - by destruct r as [[s d]|ex].
  - unfold async_add_listener. case_bool_decide; [|done].
    by apply start_observing_lookup_over.
  - unfold async_remove_listener.
    destruct (list_remove cb (_listeners (self w))) as [l'|]; [|done].
    destruct l' as [|x l']; [|done]. cbn [snd].
    destruct (_task (upd _ w).(self)) as [t1|] eqn:Ht1; [|done].
    cbn [snd upd tasks]. by apply (task_cancel_lookup_over (upd _ w)).
  - by apply reconnect_lookup_over.
  - destruct (Timer.countdown _); [|done]. by apply reconnect_lookup_over.
  - unfold shutdown. cbn [snd emit timer_cancel upd tasks].
    destruct (_reconnect_task (self w)); [|done].
    by apply task_cancel_lookup_over.
  - destruct (suspended t0 ObserveStatus w) eqn:Hs; [|done].
    pose proof (suspended_not_over w t t0 _ k Hk Hover Hs) as Hne.
    pose proof (observe_status_tasks call s w) as Hts.
    destruct (_async_observe_status call s w) as [[[]|ex] w']; simpl in *.
    + by rewrite Hts.
    + by rewrite Hts, list_lookup_alter_ne.
  - destruct (suspended t0 ObserveStatus w) eqn:Hs; [|done].
    pose proof (suspended_not_over w t t0 _ k Hk Hover Hs) as Hne.
    simpl. by rewrite list_lookup_alter_ne.
  - destruct (suspended t0 _ w) eqn:Hs; [|done].
    pose proof (suspended_not_over w t t0 _ k Hk Hover Hs) as Hne.
    simpl. by rewrite list_lookup_insert_ne.
  - destruct (suspended t0 _ w) eqn:Hs; [|done].
    pose proof (suspended_not_over w t t0 _ k Hk Hover Hs) as Hne.
    unfold _reconnect_create, task_finish. destruct r as [c|ex]; cbn [tasks].
    + rewrite list_lookup_alter_ne by done.
      by apply (start_observing_lookup_over (emit _ (upd _ w))).
    + by rewrite list_lookup_alter_ne.
Qed.

(** X11: a task that is cancelled or finished stays exactly so, whatever
    happens later, and the event loop's steps on it change nothing: a
    reconnect attempt that was superseded never closes or swaps the client
    afterwards, and an observation task that was cancelled delivers no
    further update. *)
Theorem ended_task_inert (es : list event) (w : World) (t : task_id) (k : Task) :
  tasks w !! t = Some k → t_state k ≠ Pending →
  let w' := run call es w in
  tasks w' !! t = Some k
  ∧ (∀ r, step call (EvReconnectShutdown t r) w' = w')
  ∧ (∀ r, step call (EvReconnectCreate t r) w' = w')
  ∧ (∀ s, step call (EvStatus t s) w' = w')
  ∧ step call (EvStreamEnd t) w' = w'.
Proof.
  intros Hk Hover. cbv zeta.
  assert (tasks (run call es w) !! t = Some k) as Hk'.
  { revert w Hk. induction es as [|e es IH]; intros w Hk; [done|].
    simpl. by apply IH, step_lookup_over. }
  split; [exact Hk'|].
  assert (∀ c, suspended t c (run call es w) = false) as Hns.
  { intros c. apply bool_decide_eq_false. rewrite Hk'.
    intros [= ->]. by apply Hover. }
  unfold step. by rewrite !Hns.
Qed.

End Reconnecting.

(** X1 at a reconnect task that awaits the new client, with no listener
    registered. *)
Lemma reconnect_restarts_observation_witness :
  suspended 0 (DoReconnect AtClientCreate) world_reconnecting = true
  ∧ _listeners (self world_reconnecting) = []
  ∧ observing (step call_ok (EvReconnectCreate 0 (Ok 1)) world_reconnecting).
Proof.
  split; [reflexivity|]. split; [reflexivity|].
  exact (proj1 (proj2 (reconnect_restarts_observation call_ok 0 1
                         world_reconnecting eq_refl))).
Defined.

(** X4 at the first reconnect of a fresh coordinator, both the client's
    [shutdown] and [CoAPClient.create] raising. *)
Lemma reconnect_failure_swallowed_witness :
  suspended 0 (DoReconnect AtClientShutdown) (reconnect (init 0)) = true
  ∧ self (run call_ok [EvReconnectShutdown 0 (Raise (ClientError "closed"));
                       EvReconnectCreate 0 (Raise (ClientError "unreachable"))]
            (reconnect (init 0)))
    = self (reconnect (init 0)).
Proof.
  split; [reflexivity|].
  exact (proj1 (reconnect_failure_swallowed call_ok 0 (Raise (ClientError "closed"))
                  (ClientError "unreachable") (reconnect (init 0)) eq_refl)).
Defined.

(** X10 from a world with a cached status, through a reconnect that fails
    and a shutdown. *)
Lemma status_stays_witness :
  is_Some (status (self world_rhset_50))
  ∧ is_Some (status (self (run call_ok
       [EvReconnect; EvReconnectShutdown 0 (Ok ());
        EvReconnectCreate 0 (Raise (ClientError "unreachable")); EvShutdown (Ok ())]
       world_rhset_50))).
Proof.
  assert (is_Some (status (self world_rhset_50))) as Hs by (eexists; reflexivity).
  split; [exact Hs|]. exact (status_stays call_ok _ world_rhset_50 Hs).
Defined.

(** X11 at the first of two reconnects, cancelled by the second. *)
Lemma ended_task_inert_witness :
  tasks (reconnect (reconnect (init 0))) !! 0
  = Some (mkTask (DoReconnect AtClientShutdown) Cancelled)
  ∧ t_state (mkTask (DoReconnect AtClientShutdown) Cancelled) ≠ Pending
  ∧ tasks (run call_ok [EvReconnectShutdown 1 (Ok ()); EvReconnectCreate 1 (Ok 1)]
             (reconnect (reconnect (init 0)))) !! 0
    = Some (mkTask (DoReconnect AtClientShutdown) Cancelled).
Proof.
  assert (t_state (mkTask (DoReconnect AtClientShutdown) Cancelled) ≠ Pending)
    as Hover by discriminate.
  split; [reflexivity|]. split; [exact Hover|].
  exact (proj1 (ended_task_inert call_ok _ (reconnect (reconnect (init 0))) 0 _
                  eq_refl Hover)).
Defined.

(** ** Shutdown, again *)

Section Shutdown.

Variable call : CALLBACK_TYPE → option DeviceStatus → result unit.

Lemma cancel_state_idemp (k : Task) : cancel_state (cancel_state k) = cancel_state k.
Proof. by destruct k as [c []]. Qed.

(** X13: a second [shutdown] finds nothing left to stop: the attributes
    and the task table after it are those after the first. *)
Theorem shutdown_twice (r r' : result unit) (w : World) :
  let w1 := (shutdown r w).2 in
  let w2 := (shutdown r' w1).2 in
  self w2 = self w1
  ∧ tasks w2 = tasks w1
  ∧ (shutdown r' w1).1 = r'.
Proof.
  destruct w as [[c st l tk rt d tm] ts tr].
  unfold shutdown; destruct rt as [t|]; simpl; [|done].
  split; [done|]. split; [|done].
  apply list_eq. intros i. destruct (decide (i = t)) as [->|Hne].
  - rewrite !list_lookup_alter_eq. destruct (ts !! t); [|done].
    simpl. by rewrite cancel_state_idemp.
  - by rewrite !list_lookup_alter_ne.
Qed.

(** X12: [shutdown] is not final.  The observation task it leaves live
    still takes updates, and the next update resets the timer that
    [shutdown] cancelled: the watchdog runs again and its expiry will call
    [reconnect]. *)
Theorem update_after_shutdown (c0 : Client) (es : list event) (r : result unit)
    (t : task_id) (s : DeviceStatus) :
  let w := run call es (init c0) in
  suspended t ObserveStatus w = true →
  let w1 := (shutdown r w).2 in
  let w2 := step call (EvStatus t s) w1 in
  Timer.countdown (_timer_disconnected (self w1)) = None
  ∧ suspended t ObserveStatus w1 = true
  ∧ status (self w2) = Some s
  ∧ Timer.countdown (_timer_disconnected (self w2))
    = Some (Timer.timeout (_timer_disconnected (self w)))
  ∧ _reconnect_task (self (step call EvTimerExpired w2)) = Some (length (tasks w)).
Proof.
  intros w Hs w1 w2.
  pose proof (run_typed call es (init c0) (handles_typed_init c0)) as [_ Htc].
  fold w in Htc. clearbody w.
  assert (Timer.countdown (_timer_disconnected (self w1)) = None) as Hc.
  { subst w1. unfold shutdown. by destruct (_reconnect_task (self w)). }
  assert (suspended t ObserveStatus w1 = true) as Hs1.
  { apply suspended_lookup. apply suspended_lookup in Hs.
    subst w1. unfold shutdown.
    destruct (_reconnect_task (self w)) as [t0|] eqn:Hr; simpl; [|done].
    destruct (Htc t0 eq_refl) as (x & Hx & Hk).
    rewrite list_lookup_alter_ne; [done|]. intros ->.
    rewrite Hs in Hx. by simplify_eq. }
  assert (self w1 = set_timer Timer.cancel (self w)) as Hself1.
  { subst w1. unfold shutdown. by destruct (_reconnect_task (self w)). }
  assert (length (tasks w1) = length (tasks w)) as Hlen.
  { subst w1. unfold shutdown.
    destruct (_reconnect_task (self w)); simpl; by rewrite ?length_alter. }
  assert (self w2 = set_timer Timer.reset (set_status (Some s) (self w1))) as Hself2
    by (by apply status_step_self).
  assert (length (tasks w2) = length (tasks w1)) as Hts2.
  { subst w2. unfold step. rewrite Hs1.
    pose proof (observe_status_tasks call s w1) as Hts.
    destruct (_async_observe_status call s w1) as [[[]|ex] w']; simpl in *;
      by rewrite ?length_alter, Hts. }
  assert (Timer.countdown (_timer_disconnected (self w2))
          = Some (Timer.timeout (_timer_disconnected (self w)))) as Hcd
    by (by rewrite Hself2, Hself1).
  split; [exact Hc|]. split; [exact Hs1|].
  split; [by rewrite Hself2|]. split; [exact Hcd|].
  unfold step. rewrite Hcd. unfold upd. cbn [self].
  rewrite reconnect_self. cbn [set_timer set_reconnect_task _reconnect_task].
  by rewrite Hts2, Hlen.
Qed.

End Shutdown.

(** X12 for the observation task of one listener. *)
Lemma update_after_shutdown_witness :
  let w := run call_ok [EvAddListener 1] (init 0) in
  let w1 := (shutdown (Ok ()) w).2 in
  let w2 := step call_ok (EvStatus 0 ∅) w1 in
  suspended 0 ObserveStatus w = true
  ∧ Timer.countdown (_timer_disconnected (self w1)) = None
  ∧ Timer.countdown (_timer_disconnected (self w2)) = Some 180%Z.
Proof.
  pose proof (update_after_shutdown call_ok 0 [EvAddListener 1] (Ok ()) 0 ∅ eq_refl)
    as (H1 & _ & _ & H4 & _).
  split; [reflexivity|]. split; [exact H1 | exact H4].
Defined.

(** ** The listener list *)

Lemma list_remove_first (x : nat) (l1 l2 : list nat) :
  x ∉ l1 → list_remove x (l1 ++ x :: l2) = Some (l1 ++ l2).
Proof.
  induction l1 as [|y l1 IH]; simpl; intros Hx.
  - by rewrite decide_True.
  - apply not_elem_of_cons in Hx as [Hne Hx].
    rewrite decide_False by done. by rewrite IH.
Qed.

(** X6: [async_remove_listener] removes one registration of the callback,
    the oldest, and keeps every other entry, the callback's later
    registrations among them, in its place; it cancels the observation task
    only if the list is then empty. *)
Theorem remove_first_registration (cb : CALLBACK_TYPE) (l1 l2 : list CALLBACK_TYPE)
    (w : World) :
  _listeners (self w) = l1 ++ cb :: l2 → cb ∉ l1 →
  let w' := (async_remove_listener cb w).2 in
  (async_remove_listener cb w).1 = Ok ()
  ∧ _listeners (self w') = l1 ++ l2
  ∧ (l1 ++ l2 ≠ [] → _task (self w') = _task (self w) ∧ tasks w' = tasks w
                      ∧ trace w' = trace w).
Proof.
  intros Hl Hcb. cbv zeta. unfold async_remove_listener.
  rewrite Hl, list_remove_first by done.
  destruct w as [[c st l tk rt d tm] ts tr]; simpl.
  destruct (l1 ++ l2) as [|x l'] eqn:Hrest; [destruct tk|]; done.
Qed.

(** X6 for the callback [1], registered first and last. *)
Lemma remove_first_registration_witness :
  let w := run call_ok [EvAddListener 1; EvAddListener 2; EvAddListener 1] (init 0) in
  _listeners (self w) = [] ++ 1 :: [2; 1] ∧ (1 ∉ ([] : list nat))
  ∧ _listeners (self (async_remove_listener 1 w).2) = [2; 1].
Proof.
  assert (1 ∉ ([] : list nat)) as Hn by apply not_elem_of_nil.
  split; [reflexivity|]. split; [exact Hn|].
  exact (proj1 (proj2 (remove_first_registration 1 [] [2; 1]
           (run call_ok [EvAddListener 1; EvAddListener 2; EvAddListener 1] (init 0))
           eq_refl Hn))).
Defined.

Lemma list_remove_snoc (x : nat) (l : list nat) :
  ∃ l', list_remove x (l ++ [x]) = Some l' ∧ l' ≡ₚ l ∧ (x ∉ l → l' = l).
Proof.
  destruct (decide (x ∈ l)) as [Hin|Hnin].
  - apply list_elem_of_split_l in Hin as (l1 & l2 & -> & Hx).
    exists (l1 ++ l2 ++ [x]). split; [|split].
    + rewrite <- app_assoc. simpl. by apply list_remove_first.
    + apply Permutation_app_head. by rewrite Permutation_app_comm.
    + intros Hnot. exfalso. apply Hnot. set_solver.
  - exists l. split; [|done].
    rewrite <- (app_nil_r l) at 2. by apply list_remove_first.
Qed.

Lemma remove_listener_result (cb : CALLBACK_TYPE) (l' : list CALLBACK_TYPE)
    (w : World) :
  list_remove cb (_listeners (self w)) = Some l' →
  (async_remove_listener cb w).1 = Ok ()
  ∧ _listeners (self (async_remove_listener cb w).2) = l'
  ∧ (l' = [] → _task (self (async_remove_listener cb w).2) = None).
Proof.
  intros Hrm. unfold async_remove_listener. rewrite Hrm.
  destruct w as [[c st l tk rt d tm] ts tr]; simpl.
  destruct l' as [|x l']; [destruct tk|]; done.
Qed.

Lemma snoc_eq_cons (x : nat) (l : list nat) :
  l ++ [x] = x :: l ↔ ∀ y, y ∈ l → y = x.
Proof.
  induction l as [|z l [IH1 IH2]]; simpl.
  - split; [|done]. intros _ y Hy. by apply elem_of_nil in Hy.
  - split.
    + intros Heq. injection Heq as -> Heq.
      intros y [->|Hy]%elem_of_cons; [done | by apply IH1].
    + intros Hall. rewrite (Hall z) by left. f_equal.
      apply IH2. intros y Hy. apply Hall. by right.
Qed.

(** X5: registering a callback and then calling the remover that
    [async_add_listener] returned always succeeds and leaves the same
    registrations; the list itself is as before when the callback was not
    registered already.  Otherwise it is the oldest registration of the
    callback that went and the new one, at the end, that stayed: the
    entries before and after the oldest registration keep their places, and
    the list, so the order of notification, has changed unless every entry
    after that registration is the callback again.  From an empty list the
    pair leaves no observation task held. *)
Theorem add_then_remove (cb : CALLBACK_TYPE) (w : World) :
  let w1 := async_add_listener cb w in
  let w2 := (async_remove_listener cb w1).2 in
  (async_remove_listener cb w1).1 = Ok ()
  ∧ _listeners (self w2) ≡ₚ _listeners (self w)
  ∧ (cb ∉ _listeners (self w) → _listeners (self w2) = _listeners (self w))
  ∧ (∀ l1 l2, _listeners (self w) = l1 ++ cb :: l2 → cb ∉ l1 →
       _listeners (self w2) = l1 ++ l2 ++ [cb]
       ∧ (_listeners (self w2) = _listeners (self w) ↔ ∀ x, x ∈ l2 → x = cb))
  ∧ (_listeners (self w) = [] → _task (self w2) = None ∧ ¬ observing w2).
Proof.
  cbv zeta.
  assert (_listeners (self (async_add_listener cb w)) = _listeners (self w) ++ [cb])
    as Hadd.
  { unfold async_add_listener. case_bool_decide; [|done].
    by rewrite start_observing_self. }
  destruct (list_remove_snoc cb (_listeners (self w))) as (l' & Hrm & Hperm & Heq).
  pose proof Hrm as Hrm0.
  rewrite <- Hadd in Hrm.
  destruct (remove_listener_result cb l' _ Hrm) as (Hok & Hls & Htk).
  split; [exact Hok|]. rewrite Hls. split; [exact Hperm|]. split; [exact Heq|].
  split.
  - intros l1 l2 Hl Hnot. rewrite Hl in Hrm0 |- *.
    rewrite <- app_assoc in Hrm0. simpl in Hrm0.
    rewrite (list_remove_first cb l1 (l2 ++ [cb]) Hnot) in Hrm0.
    injection Hrm0 as <-. split; [done|].
    rewrite <- snoc_eq_cons. split; [by intros ?%app_inv_head | by intros ->].
  - intros Hnil. rewrite Hnil in Hperm. apply Permutation_nil_r in Hperm.
    split; [by apply Htk|].
    intros (t & Ht & _). rewrite Htk in Ht by done. discriminate Ht.
Qed.

(** On the listeners [1; 2], registering [1] again and removing it leaves
    [2; 1]. *)
Lemma add_then_remove_reorders :
  let w := run call_ok [EvAddListener 1; EvAddListener 2] (init 0) in
  _listeners (self w) = [1; 2]
  ∧ _listeners (self (async_remove_listener 1 (async_add_listener 1 w)).2) = [2; 1].
Proof. cbv zeta. split; reflexivity. Qed.

(** ** Updates in sequence *)

Section Updates.

Variable call : CALLBACK_TYPE → option DeviceStatus → result unit.

Lemma notify_all_ok (l : list CALLBACK_TYPE) (w : World) :
  (∀ cb, cb ∈ l → call cb (status (self w)) = Ok ()) →
  notify call l w
  = (Ok (), mkWorld (self w) (tasks w)
              (trace w ++ ((λ cb, Call cb (status (self w))) <$> l))).
Proof.
  revert w. induction l as [|cb l IH]; intros w Hok; simpl.
  - rewrite app_nil_r. by destruct w.
  - rewrite (Hok cb) by left.
    rewrite IH by (intros cb' Hcb'; apply Hok; by right).
    simpl. by rewrite <- app_assoc.
Qed.

Lemma status_step_all_ok (t : nat) (s : DeviceStatus) (w : World) :
  suspended t ObserveStatus w = true →
  (∀ cb, cb ∈ _listeners (self w) → call cb (Some s) = Ok ()) →
  step call (EvStatus t s) w
  = mkWorld (set_timer Timer.reset (set_status (Some s) (self w))) (tasks w)
            (trace w ++ update_effects (_listeners (self w)) s).
Proof.
  intros Hs Hok. unfold step. rewrite Hs.
  unfold _async_observe_status. rewrite notify_all_ok by exact Hok.
  unfold update_effects. simpl. by rewrite <- !app_assoc.
Qed.

(** X7: while the observation task is live and the listeners return, the
    updates of a sequence are applied one by one in its order: each is
    cached, resets the timer and is delivered to every listener in
    registration order before the next; at the end the cache holds the last
    update and the task is still live. *)
Theorem updates_in_order (t : task_id) (ss : list DeviceStatus) (w : World) :
  suspended t ObserveStatus w = true →
  (∀ cb s, cb ∈ _listeners (self w) → s ∈ ss → call cb (Some s) = Ok ()) →
  let w' := run call (EvStatus t <$> ss) w in
  status (self w') = from_option Some (status (self w)) (last ss)
  ∧ trace w' = trace w ++ concat (update_effects (_listeners (self w)) <$> ss)
  ∧ _listeners (self w') = _listeners (self w)
  ∧ suspended t ObserveStatus w' = true
  ∧ tasks w' = tasks w.
Proof.
  revert w. induction ss as [|s ss IH]; intros w Hs Hok; cbv zeta.
  - simpl. by rewrite app_nil_r.
  - change (run call (EvStatus t <$> s :: ss) w)
      with (run call (EvStatus t <$> ss) (step call (EvStatus t s) w)).
    rewrite status_step_all_ok; [|done|intros cb Hcb; apply Hok; [done|by left]].
    set (w1 := mkWorld _ _ _).
    destruct (IH w1) as (Hst & Htr & Hls & Hsus & Hts).
    { exact Hs. }
    { intros cb s' Hcb Hs'. apply Hok; [exact Hcb | by right]. }
    rewrite Hst, Htr, Hls, Hsus, Hts. subst w1. simpl.
    split; [|split; [by rewrite <- app_assoc | done]].
    destruct ss as [|s' ss']; [done|].
    change (last (s :: s' :: ss')) with (last (s' :: ss')).
    destruct (last (s' :: ss')) eqn:Hlast; [done|].
    by apply last_None in Hlast.
Qed.

Lemma notify_some_raises (l : list CALLBACK_TYPE) (w : World) (cb : CALLBACK_TYPE)
    (ex : exn) :
  cb ∈ l → call cb (status (self w)) = Raise ex →
  ∃ ex', (notify call l w).1 = Raise ex'.
Proof.
  revert w. induction l as [|x l IH]; intros w Hin Hraise.
  - by apply elem_of_nil in Hin.
  - simpl. destruct (call x (status (self w))) as [[]|ex0] eqn:Hx; [|by eexists].
    apply elem_of_cons in Hin as [->|Hin]; [congruence|].
    by apply (IH (emit _ w)).
Qed.

(** X8: one listener that raises on an update ends the observation: the
    update is cached, the task is over, and no later update of the stream
    reaches the cache or any listener, while the listeners stay registered
    and the coordinator still holds the dead task. *)
Theorem raising_listener_stops_observation (t : task_id) (s : DeviceStatus)
    (cb : CALLBACK_TYPE) (ex : exn) (w : World) :
  suspended t ObserveStatus w = true →
  cb ∈ _listeners (self w) → call cb (Some s) = Raise ex →
  let w' := step call (EvStatus t s) w in
  status (self w') = Some s
  ∧ tasks w' !! t = Some (mkTask ObserveStatus Done)
  ∧ ¬ live is_observe w' t
  ∧ _listeners (self w') = _listeners (self w)
  ∧ _task (self w') = _task (self w)
  ∧ (∀ es, run call (EvStatus t <$> es) w' = w').
Proof.
  intros Hs Hin Hraise. cbv zeta.
  pose proof (status_step_self call t s w Hs) as Hself.
  assert (tasks (step call (EvStatus t s) w) = alter finish_state t (tasks w)) as Hts.
  { unfold step. rewrite Hs.
    pose proof (observe_status_tasks call s w) as Hts.
    unfold _async_observe_status in *.
    set (w2 := timer_reset _) in *.
    destruct (notify_some_raises (_listeners (self w2)) w2 cb ex Hin Hraise)
      as [ex' Hex].
    destruct (notify call (_listeners (self w2)) w2) as [[[]|e0] w'];
      simpl in *; [done|]. by rewrite Hts. }
  apply suspended_lookup in Hs.
  assert (tasks (step call (EvStatus t s) w) !! t = Some (mkTask ObserveStatus Done))
    as Hdone by (by rewrite Hts, list_lookup_alter_eq, Hs).
  rewrite Hself. split; [done|]. split; [exact Hdone|]. split.
  { intros (c & Hl & _). unfold live in *. rewrite Hdone in Hl. by simplify_eq. }
  split; [done|]. split; [done|].
  intros es. induction es as [|s' es IH]; [done|].
  change (run call (EvStatus t <$> s' :: es) ?w0)
    with (run call (EvStatus t <$> es) (step call (EvStatus t s') w0)).
  assert (step call (EvStatus t s') (step call (EvStatus t s) w)
          = step call (EvStatus t s) w) as ->; [|exact IH].
  unfold step at 1.
  assert (suspended t ObserveStatus (step call (EvStatus t s) w) = false) as ->;
    [|done].
  apply bool_decide_eq_false. by rewrite Hdone.
Qed.

End Updates.

(** X7 for two updates and two listeners. *)
Lemma updates_in_order_witness :
  let w := run call_ok [EvAddListener 1; EvAddListener 2] (init 0) in
  let s1 : DeviceStatus := {[ "pwr" := PyStr "0" ]} in
  let s2 : DeviceStatus := {[ "pwr" := PyStr "1" ]} in
  suspended 0 ObserveStatus w = true
  ∧ status (self (run call_ok (EvStatus 0 <$> [s1; s2]) w)) = Some s2.
Proof.
  split; [reflexivity|].
  exact (proj1 (updates_in_order call_ok 0
           [{[ "pwr" := PyStr "0" ]}; {[ "pwr" := PyStr "1" ]}]
           (run call_ok [EvAddListener 1; EvAddListener 2] (init 0))
           eq_refl (λ _ _ _ _, eq_refl))).
Defined.

(** X8 for listeners [1] and [2], of which [1] raises. *)
Lemma raising_listener_stops_observation_witness :
  let w := run call_1_raises [EvAddListener 1; EvAddListener 2] (init 0) in
  suspended 0 ObserveStatus w = true
  ∧ 1 ∈ _listeners (self w)
  ∧ call_1_raises 1 (Some ∅) = Raise ValueError
  ∧ tasks (step call_1_raises (EvStatus 0 ∅) w) !! 0
    = Some (mkTask ObserveStatus Done).
Proof.
  assert (1 ∈ [1; 2]) as Hin by left.
  split; [reflexivity|]. split; [exact Hin|]. split; [reflexivity|].
  exact (proj1 (proj2 (raising_listener_stops_observation call_1_raises 0 ∅ 1
           ValueError (run call_1_raises [EvAddListener 1; EvAddListener 2] (init 0))
           eq_refl Hin eq_refl))).
Defined.

(** * Further properties of the control surfaces *)

(** ** The filter reset button *)

(** X14: [async_press] never raises and never changes the coordinator: it
    sends the filter's total as the cached status has it ([None] when the
    status has no such entry), then refreshes and logs, or logs the client's
    error; with no cached status it calls no client and logs.  The cached
    filter value itself is not patched. *)
Theorem press_effects (b : Button.PhilipsFilterResetButton) (r : result unit)
    (w : World) :
  let w' := (Button.async_press b r w).2 in
  (Button.async_press b r w).1 = Ok ()
  ∧ self w' = self w
  ∧ tasks w' = tasks w
  ∧ trace w'
    = trace w
      ++ match status (self w) with
         | None => [LogError AttributeError]
         | Some d =>
             SetControlValue (client (self w)) (Button._filter_type b)
                             (d !! Button.TOTAL b)
             :: match r with
                | Ok _ => [HandleCoordinatorUpdate; LogInfo]
                | Raise ex => [LogError ex]
                end
         end.
Proof.
  unfold Button.async_press, device_status_get.
  destruct (status (self w)) as [d|]; simpl; [|done].
  destruct r as [[]|ex]; simpl; rewrite <- ?app_assoc; done.
Qed.

(** ** The humidifier's switch *)

Lemma device_status_set_Some (k : string) (v : pyval) (d : DeviceStatus) (w : World) :
  status (self w) = Some d →
  device_status_set k v w = (Ok (), upd (set_status (Some (<[k := v]> d))) w).
Proof. unfold device_status_set. by intros ->. Qed.

(** X15: with a switch and a cached status, a successful [async_turn_on]
    sends the power and function values in one call and patches the cache
    with both, after which [action] is humidifying and [is_on] is true; a
    successful [async_turn_off] sends and patches the function only, the
    power entry staying as it was, after which [is_on] is false (idle and
    humidifying being different values). *)
Theorem switch_then_is_on (h : Humidifier.PhilipsHumidifier) (d : DeviceStatus)
    (w : World) :
  Humidifier._switch h = true →
  status (self w) = Some d →
  let pk := Humidifier._power_key h in
  let fk := Humidifier._function_key h in
  let on := (Humidifier.async_turn_on h (Ok ()) w).2 in
  let off := (Humidifier.async_turn_off h (Ok ()) w).2 in
  (Humidifier.async_turn_on h (Ok ()) w).1 = Ok ()
  ∧ status (self on)
    = Some (<[fk := Humidifier.HUMIDIFYING h]> (<[pk := Humidifier.ON h]> d))
  ∧ trace on
    = trace w ++ [SetControlValues (client (self w))
                    (<[fk := Humidifier.HUMIDIFYING h]> {[ pk := Humidifier.ON h ]});
                  HandleCoordinatorUpdate]
  ∧ action h on = Ok ActionHumidifying
  ∧ is_on h on = Ok true
  ∧ (Humidifier.async_turn_off h (Ok ()) w).1 = Ok ()
  ∧ status (self off) = Some (<[fk := Humidifier.IDLE h]> d)
  ∧ (pk ≠ fk → ∀ d', status (self off) = Some d' → d' !! pk = d !! pk)
  ∧ (Humidifier.IDLE h ≠ Humidifier.HUMIDIFYING h →
       is_on h off = Ok false
       ∧ is_on h (Humidifier.async_turn_off h (Ok ()) on).2 = Ok false).
Proof.
  intros Hsw Hst. cbv zeta.
  unfold Humidifier.async_turn_on, Humidifier.async_turn_off.
  rewrite Hsw. cbn [negb].
  rewrite (device_status_set_Some _ _ d) by done.
  rewrite (device_status_set_Some _ _ (<[Humidifier._power_key h := Humidifier.ON h]> d))
    by done.
  rewrite (device_status_set_Some _ _ d) by done.
  unfold is_on, action, device_status_get. simpl.
  rewrite !lookup_insert_eq, decide_True by done.
  split; [done|]. split; [done|]. split; [by rewrite <- app_assoc|].
  split; [done|]. split; [done|]. split; [done|]. split; [done|]. split.
  - intros Hne d' [= <-]. by rewrite lookup_insert_ne.
  - intros Hidle. rewrite decide_False by congruence. done.
Qed.

(** X15 for the humidifier with targets 40 to 70. *)
Lemma switch_then_is_on_witness :
  Humidifier._switch humidifier_10 = true
  ∧ status (self world_rhset_50) = Some {[ "rhset" := PyInt 50 ]}
  ∧ is_on humidifier_10
      (Humidifier.async_turn_on humidifier_10 (Ok ()) world_rhset_50).2 = Ok true.
Proof.
  split; [reflexivity|]. split; [reflexivity|].
  exact (proj1 (proj2 (proj2 (proj2 (proj2
           (switch_then_is_on humidifier_10 _ world_rhset_50 eq_refl eq_refl)))))).
Defined.

(** ** The target humidity *)

Section Target.

Variable int_of_str : string → option Z.

(** X16: [async_set_humidity] raises, sends nothing and leaves the world as
    it is when the input is a text that [int] does not read ([ValueError]),
    when no status is cached ([AttributeError]), when the cached status has
    no target ([TypeError], from [int(None)]), and when the step is zero
    ([ZeroDivisionError]). *)
Theorem set_humidity_errors (h : Humidifier.PhilipsHumidifier) (r : result unit)
    (w : World) :
  let key := Humidifier._humidity_target_key h in
  (∀ s, int_of_str s = None →
     Humidifier.async_set_humidity int_of_str h (PyStr s) r w = (Raise ValueError, w))
  ∧ (∀ n, status (self w) = None →
     Humidifier.async_set_humidity int_of_str h (PyInt n) r w
     = (Raise AttributeError, w))
  ∧ (∀ n d, status (self w) = Some d → d !! key = None →
     Humidifier.async_set_humidity int_of_str h (PyInt n) r w = (Raise TypeError, w))
  ∧ (∀ n d c, status (self w) = Some d → d !! key = Some (PyInt c) →
     Humidifier.STEP h = 0%Z →
     Humidifier.async_set_humidity int_of_str h (PyInt n) r w
     = (Raise ZeroDivisionError, w)).
Proof.
  cbv zeta.
  unfold Humidifier.async_set_humidity, Humidifier.target_humidity, device_status_get.
  split; [|split; [|split]].
  - intros s Hs. simpl. by rewrite Hs.
  - intros n Hst. simpl. by rewrite Hst.
  - intros n d Hst Hk. simpl. by rewrite Hst, Hk.
  - intros n d c Hst Hk Hz. simpl. rewrite Hst, Hk. simpl.
    by rewrite decide_True.
Qed.

End Target.

Lemma round_div_mul (k d : Z) : d ≠ 0%Z → round_div (k * d) d = k.
Proof.
  intros Hd. unfold round_div.
  rewrite Z.div_mul, Z.mod_mul by done.
  change (2 * Z.abs 0)%Z with 0%Z.
  destruct (Z.compare_spec 0 (Z.abs d)) as [He|Hlt|Hgt]; [lia|done|lia].
Qed.



Lemma round_div_within (n d : Z) :
  (0 < d)%Z → (- d ≤ 2 * (n - round_div n d * d) ≤ d)%Z.
Proof.
  intros Hd. unfold round_div.
  pose proof (Z.div_mod n d) as Hdm.
  pose proof (Z.mod_pos_bound n d Hd) as Hr.
  destruct (Z.compare_spec (2 * Z.abs (n `mod` d)) (Z.abs d)) as [He|Hlt|Hgt];
    [destruct (Z.even _)| |]; nia.
Qed.

Lemma round_div_mono (n m d : Z) :
  (0 < d)%Z → (n ≤ m)%Z → (round_div n d ≤ round_div m d)%Z.
Proof.
  intros Hd Hnm.
  destruct (decide (n = m)) as [->|Hne]; [done|].
  pose proof (round_div_within n d Hd) as Hn.
  pose proof (round_div_within m d Hd) as Hm.
  nia.
Qed.

(** X2: for a positive step, bounds that are multiples of the step, and a
    humidity within the bounds and of magnitude below [2^52] (the range on
    which the exact quotient of [round_div] rounds as the float quotient of
    [round(humidity / step)] does), the target [async_set_humidity]
    computes is a multiple of the step nearest to the humidity: it is off
    by at most half a step, and no multiple of the step is nearer. *)
Theorem on_step_in_bounds_nearest (h : Humidifier.PhilipsHumidifier) (x : Z) :
  (0 < Humidifier.STEP h)%Z →
  (Humidifier.STEP h | Humidifier._attr_min_humidity h)%Z →
  (Humidifier.STEP h | Humidifier._attr_max_humidity h)%Z →
  (Humidifier._attr_min_humidity h ≤ x ≤ Humidifier._attr_max_humidity h)%Z →
  (Z.abs x < 2 ^ 52)%Z →
  let target := Humidifier.on_step_in_bounds h x in
  (Humidifier.STEP h | target)%Z
  ∧ (2 * Z.abs (x - target) ≤ Humidifier.STEP h)%Z
  ∧ (∀ m, (Humidifier.STEP h | m)%Z → (Z.abs (x - target) ≤ Z.abs (x - m))%Z).
Proof.
  intros Hs [a Ha] [b Hb] [Hlo Hhi] _. cbv zeta.
  unfold Humidifier.on_step_in_bounds.
  pose proof (round_div_within x _ Hs) as Hw.
  pose proof (round_div_mono _ _ _ Hs Hlo) as Hra.
  pose proof (round_div_mono _ _ _ Hs Hhi) as Hrb.
  rewrite Ha, round_div_mul in Hra by lia.
  rewrite Hb, round_div_mul in Hrb by lia.
  rewrite Ha, Hb.
  set (s := Humidifier.STEP h) in *.
  set (r := round_div x s) in *.
  rewrite Z.min_l by nia. rewrite Z.max_r by nia.
  split; [by exists r|]. split; [lia|].
  intros m [k ->].
  destruct (Z.lt_trichotomy k r) as [Hlt|[->|Hgt]]; [|done|].
  - assert (k * s ≤ r * s - s)%Z by nia. lia.
  - assert (r * s + s ≤ k * s)%Z by nia. lia.
Qed.

(** X2 at 44 between 40 and 70 in steps of 10. *)
Lemma on_step_in_bounds_nearest_witness :
  (0 < Humidifier.STEP humidifier_10)%Z
  ∧ (40 ≤ 44 ≤ 70)%Z
  ∧ (Z.abs 44 < 2 ^ 52)%Z
  ∧ (2 * Z.abs (44 - Humidifier.on_step_in_bounds humidifier_10 44) ≤ 10)%Z.
Proof.
  assert (0 < Humidifier.STEP humidifier_10)%Z as Hs by reflexivity.
  assert (10 | 40)%Z as Hmin by (exists 4%Z; reflexivity).
  assert (10 | 70)%Z as Hmax by (exists 7%Z; reflexivity).
  assert (40 ≤ 44 ≤ 70)%Z as Hx by lia.
  assert (Z.abs 44 < 2 ^ 52)%Z as Hf by reflexivity.
  split; [exact Hs|]. split; [exact Hx|]. split; [exact Hf|].
  exact (proj1 (proj2 (on_step_in_bounds_nearest humidifier_10 44
                         Hs Hmin Hmax Hx Hf))).
Defined.

(** X18: for a positive step the target sent grows with the humidity asked
    for: a higher request never sends a lower target. *)
Theorem on_step_in_bounds_mono (h : Humidifier.PhilipsHumidifier) (x y : Z) :
  (0 < Humidifier.STEP h)%Z → (x ≤ y)%Z →
  (Humidifier.on_step_in_bounds h x ≤ Humidifier.on_step_in_bounds h y)%Z.
Proof.
  intros Hs Hxy. unfold Humidifier.on_step_in_bounds.
  pose proof (round_div_mono x y (Humidifier.STEP h) Hs Hxy). nia.
Qed.

(** X18 at 44 and 46. *)
Lemma on_step_in_bounds_mono_witness :
  (0 < Humidifier.STEP humidifier_10)%Z ∧ (44 ≤ 46)%Z
  ∧ (Humidifier.on_step_in_bounds humidifier_10 44
     ≤ Humidifier.on_step_in_bounds humidifier_10 46)%Z.
Proof.
  assert (0 < Humidifier.STEP humidifier_10)%Z as Hs by reflexivity.
  assert (44 ≤ 46)%Z as Hle by lia.
  split; [exact Hs|]. split; [exact Hle|].
  exact (on_step_in_bounds_mono humidifier_10 44 46 Hs Hle).
Defined.

Section Buttons.

Variable int_of_str : string → option Z.


End Buttons.


(** ** Setting up the entities *)

Lemma elem_of_mro_collect (x : string) (attrs : list (list string)) :
  x ∈ mro_collect attrs ↔ ∃ a, a ∈ attrs ∧ x ∈ a.
Proof.
  unfold mro_collect. rewrite list_elem_of_In, in_concat. split.
  - intros (a & Ha & Hx). exists a.
    split; [by apply elem_of_reverse, list_elem_of_In | by apply list_elem_of_In].
  - intros (a & Ha & Hx). exists a.
    split; [by apply list_elem_of_In, elem_of_reverse | by apply list_elem_of_In].
Qed.

(** X20: for a model that [model_to_class] knows, [button.async_setup_entry]
    creates a reset button exactly for the filters of [FILTER_TYPES] that the
    status reports and that no class of the model's hierarchy lists as
    unavailable, in the order of [FILTER_TYPES]; the order in which the
    hierarchy is walked makes no difference.  For an unknown model it
    creates nothing. *)
Theorem button_setup (FILTER_TYPES : list (string * string))
    (attrs : list (list string)) (status : DeviceStatus) :
  button_async_setup_entry FILTER_TYPES None status = None
  ∧ ∃ bs,
      button_async_setup_entry FILTER_TYPES (Some attrs) status = Some bs
      ∧ (∀ b, b ∈ bs ↔
           (Button._filter_type b, Button.TOTAL b) ∈ FILTER_TYPES
           ∧ is_Some (status !! Button._filter_type b)
           ∧ ∀ a, a ∈ attrs → Button._filter_type b ∉ a)
      ∧ (Button._filter_type <$> bs) `sublist_of` FILTER_TYPES.*1
      ∧ button_async_setup_entry FILTER_TYPES (Some (reverse attrs)) status = Some bs.
Proof.
  split; [done|]. eexists. split; [reflexivity|]. split; [|split].
  - intros [f t]. rewrite list_elem_of_fmap. simpl. split.
    + intros ([f' t'] & [= -> ->] & Hin). apply list_elem_of_filter in Hin
        as [[Hst Hun] Hin]. simpl in *.
      split; [done|]. split; [done|].
      intros a Ha Hf. apply Hun, elem_of_mro_collect. eauto.
    + intros (Hin & Hst & Hun). exists (f, t). split; [done|].
      apply list_elem_of_filter. split; [|done]. simpl. split; [done|].
      intros (a & Ha & Hf)%elem_of_mro_collect. by apply (Hun a).
  - rewrite <- list_fmap_compose.
    change (Button._filter_type ∘ (λ ft : string * string, Button.mk ft.1 ft.2))
      with (@fst string string).
    apply fmap_sublist, sublist_filter.
  - unfold button_async_setup_entry. do 2 f_equal.
    apply list_filter_iff. intros [f t]. simpl.
    rewrite !elem_of_mro_collect. setoid_rewrite elem_of_reverse. done.
Qed.

(** X21: for a known model [humidifier.async_setup_entry] creates a
    humidifier exactly for the entries of [HUMIDIFIER_TYPES] whose key some
    class of the hierarchy lists as available, none for an unknown model.
    The status key of a humidifier is its key in [HUMIDIFIER_TYPES] up to
    the first ["#"]: a prefix of it without ["#"], the whole key when that
    has none, so that keys which differ after the ["#"] only share one
    status entry. *)
Theorem humidifier_setup (HUMIDIFIER_TYPES : list (string * HumidifierDescription))
    (attrs : list (list string)) :
  humidifier_async_setup_entry HUMIDIFIER_TYPES None = None
  ∧ (∃ hs,
      humidifier_async_setup_entry HUMIDIFIER_TYPES (Some attrs) = Some hs
      ∧ ∀ h, h ∈ hs ↔
          ∃ name d, (name, d) ∈ HUMIDIFIER_TYPES ∧ h = humidifier_init name d
                    ∧ ∃ a, a ∈ attrs ∧ name ∈ a)
  ∧ (∀ name d,
       let key := Humidifier._humidity_target_key (humidifier_init name d) in
       (∃ rest, name = key +:+ rest)
       ∧ (∀ s1 s2, key ≠ s1 +:+ String hash s2)
       ∧ ((∀ s1 s2, name ≠ s1 +:+ String hash s2) → key = name)
       ∧ (∀ s2, Humidifier._humidity_target_key
                  (humidifier_init (key +:+ String hash s2) d) = key)).
Proof.
  split; [done|]. split.
  - eexists. split; [reflexivity|].
    intros h. rewrite list_elem_of_fmap. split.
    + intros ([name d] & -> & Hin). apply list_elem_of_filter in Hin as [Hav Hin].
      exists name, d. split; [done|]. split; [done|].
      by apply elem_of_mro_collect.
    + intros (name & d & Hin & -> & Hav). exists (name, d). split; [done|].
      apply list_elem_of_filter. split; [|done]. by apply elem_of_mro_collect.
  - intros name d. cbn [humidifier_init Humidifier._humidity_target_key].
    assert (∀ a s1 s2, String a s1 +:+ s2 = String a (s1 +:+ s2)) as Hcons by done.
    assert (∀ s2, EmptyString +:+ s2 = s2) as Hnil by done.
    assert (∀ s, ∃ rest, s = partition_head hash s +:+ rest) as Hprefix.
    { induction s as [|a s [rest IH]]; simpl; [by exists EmptyString|].
      case_decide; [by eexists|]. exists rest. rewrite Hcons. by f_equal. }
    assert (∀ s s1 s2, partition_head hash s ≠ s1 +:+ String hash s2) as Hfree.
    { induction s as [|a s IH]; intros s1 s2; simpl.
      - destruct s1; [by rewrite Hnil | by rewrite Hcons].
      - case_decide; [destruct s1; [by rewrite Hnil | by rewrite Hcons]|].
        destruct s1 as [|b s1]; [rewrite Hnil; congruence|].
        rewrite Hcons. intros [= -> Heq]. by apply (IH s1 s2). }
    assert (∀ s, (∀ s1 s2, s ≠ s1 +:+ String hash s2) → partition_head hash s = s)
      as Hwhole.
    { induction s as [|a s IH]; intros Hno; simpl; [done|].
      case_decide as Ha.
      - subst. exfalso. by apply (Hno EmptyString s).
      - f_equal. apply IH. intros s1 s2 ->. by apply (Hno (String a s1) s2). }
    assert (∀ s s2, (∀ s3 s4, s ≠ s3 +:+ String hash s4) →
               partition_head hash (s +:+ String hash s2) = s) as Hcut.
    { induction s as [|a s IH]; intros s2 Hno.
      - rewrite Hnil. simpl. by rewrite ?decide_True.
      - rewrite Hcons. simpl. case_decide as Ha.
        + subst. exfalso. by apply (Hno EmptyString s).
        + f_equal. apply IH. intros s3 s4 ->. by apply (Hno (String a s3) s4). }
    split; [apply Hprefix|]. split; [apply Hfree|]. split; [apply Hwhole|].
    intros s2. apply Hcut. intros s3 s4. apply Hfree.
Qed.

Lemma list_ascii_of_append (a t : string) :
  String.list_ascii_of_string (a +:+ t)
  = String.list_ascii_of_string a ++ String.list_ascii_of_string t.
Proof.
  induction a as [|x a IH]; [done|].
  change (String x a +:+ t) with (String x (a +:+ t)). simpl. by rewrite IH.
Qed.

Lemma append_inj_suffix (a b t : string) : a +:+ t = b +:+ t → a = b.
Proof.
  intros Heq. apply (f_equal String.list_ascii_of_string) in Heq.
  rewrite !list_ascii_of_append in Heq. apply app_inv_tail in Heq.
  apply (f_equal String.string_of_list_ascii) in Heq.
  by rewrite !String.string_of_list_ascii_of_string in Heq.
Qed.

(** X22: for one model and one device, the unique id of a reset button
    determines its filter; so, the keys of [FILTER_TYPES] being distinct (they
    are the keys of a dict), the buttons that [async_setup_entry] creates
    have pairwise distinct unique ids. *)
Theorem button_unique_ids (model device_id : string) :
  (∀ f1 f2, button_unique_id model device_id f1 = button_unique_id model device_id f2
            → f1 = f2)
  ∧ (∀ FILTER_TYPES attrs status bs,
       NoDup FILTER_TYPES.*1 →
       button_async_setup_entry FILTER_TYPES (Some attrs) status = Some bs →
       NoDup ((λ b, button_unique_id model device_id (Button._filter_type b)) <$> bs)).
Proof.
  assert (Inj (=) (=) (button_unique_id model device_id)) as Hinj.
  { intros f1 f2 Heq. unfold button_unique_id in Heq.
    do 4 apply String.app_inj in Heq. by apply append_inj_suffix in Heq. }
  split; [exact Hinj|].
  intros FT attrs status bs Hnodup [= <-].
  rewrite <- list_fmap_compose.
  change ((λ b, button_unique_id model device_id (Button._filter_type b))
            ∘ (λ ft : string * string, Button.mk ft.1 ft.2))
    with (button_unique_id model device_id ∘ @fst string string).
  rewrite list_fmap_compose. apply NoDup_fmap_2; [exact Hinj|].
  eapply sublist_NoDup; [exact Hnodup | apply fmap_sublist, sublist_filter].
Qed.

(** * Observation and listeners over all runs *)

Section Observation_runs.

Variable call : CALLBACK_TYPE → option DeviceStatus → result unit.

Lemma idle_or_observing_same (w w' : World) :
  _listeners (self w') = _listeners (self w) →
  _task (self w') = _task (self w) →
  (∀ t, tasks w !! t = Some (mkTask ObserveStatus Pending) →
        tasks w' !! t = Some (mkTask ObserveStatus Pending)) →
  idle_or_observing w → idle_or_observing w'.
Proof.
  unfold idle_or_observing. intros -> -> Hts.
  destruct (_listeners (self w)); [done|].
  intros (t & Ht & Hl). exists t. split; [done | by apply Hts].
Qed.

(** A task that runs [_reconnect] is not a pending observation task. *)
Lemma reconnect_kind_ne (ts : list Task) (t t0 : nat) :
  ts !! t = Some (mkTask ObserveStatus Pending) →
  kind_at is_reconnect ts t0 → t0 ≠ t.
Proof. intros Ht (x & Hx & Hk) ->. rewrite Ht in Hx. by simplify_eq. Qed.

Lemma reconnect_keeps_observe (w : World) (t : nat) :
  handles_typed w →
  tasks w !! t = Some (mkTask ObserveStatus Pending) →
  tasks (reconnect w) !! t = Some (mkTask ObserveStatus Pending).
Proof.
  intros [_ Htc] Ht. pose proof (lookup_lt_Some _ _ _ Ht) as Hlt.
  destruct w as [[c st l tk rt d tm] ts tr].
  unfold reconnect; destruct rt as [t0|]; simpl in *.
  - rewrite lookup_app_l by (rewrite length_alter; lia).
    rewrite list_lookup_alter_ne; [done|].
    by apply (reconnect_kind_ne ts), Htc.
  - by rewrite lookup_app_l.
Qed.

Lemma shutdown_keeps_observe (r : result unit) (w : World) (t : nat) :
  handles_typed w →
  tasks w !! t = Some (mkTask ObserveStatus Pending) →
  tasks (shutdown r w).2 !! t = Some (mkTask ObserveStatus Pending).
Proof.
  intros [_ Htc] Ht.
  destruct w as [[c st l tk rt d tm] ts tr].
  unfold shutdown; destruct rt as [t0|]; simpl in *; [|done].
  rewrite list_lookup_alter_ne; [done|].
  by apply (reconnect_kind_ne ts), Htc.
Qed.

Lemma suspended_reconnect_ne (w : World) (t t0 : nat) (pc : reconnect_pc) :
  tasks w !! t = Some (mkTask ObserveStatus Pending) →
  suspended t0 (DoReconnect pc) w = true → t0 ≠ t.
Proof.
  intros Ht Hs%suspended_lookup ->. rewrite Ht in Hs. by simplify_eq.
Qed.

Lemma step_idle_or_observing (e : event) (w : World) :
  undisturbing call e w = true → handles_typed w →
  idle_or_observing w → idle_or_observing (step call e w).
Proof.
  intros Hund Hty Hw.
  destruct e as [r|cb|cb| | |r|t0 s|t0|t0 r|t0 r]; unfold step.
  - by destruct r as [[s d]|ex].
  - by apply add_listener_idle_or_observing.
  - by apply remove_listener_idle_or_observing.
  - destruct (reconnect_fields w) as (_ & _ & _ & Htk & Hls & _).
    apply (idle_or_observing_same w); [done..| |done].
    intros t. by apply reconnect_keeps_observe.
  - destruct (Timer.countdown _); [|done].
    destruct (reconnect_fields w) as (_ & _ & _ & Htk & Hls & _).
    apply (idle_or_observing_same w); [done..| |done].
    intros t. by apply reconnect_keeps_observe.
  - apply (idle_or_observing_same w); [| | |done].
    + unfold shutdown. by destruct (_reconnect_task (self w)).
    + unfold shutdown. by destruct (_reconnect_task (self w)).
    + intros t. by apply shutdown_keeps_observe.
  - simpl in Hund. destruct (suspended t0 ObserveStatus w) eqn:Hs; [|done].
    simpl in Hund.
    pose proof (observe_status_self call s w) as Hself.
    pose proof (observe_status_tasks call s w) as Hts.
    destruct (_async_observe_status call s w) as [[[]|ex] w']; [|done].
    simpl in *. apply (idle_or_observing_same w); [by rewrite Hself..| |done].
    intros t. by rewrite Hts.
  - simpl in Hund. by destruct (suspended t0 ObserveStatus w).
  - destruct (suspended t0 _ w) eqn:Hs; [|done].
    apply (idle_or_observing_same w); [done..| |done].
    intros t Ht. simpl. rewrite list_lookup_insert_ne; [done|].
    by eapply suspended_reconnect_ne.
  - destruct (suspended t0 _ w) eqn:Hs; [|done].
    unfold _reconnect_create. destruct r as [c|ex].
    + simpl in Hund. rewrite Hs in Hund. simpl in Hund.
      apply negb_true_iff, bool_decide_eq_false in Hund.
      apply suspended_lookup in Hs.
      pose proof (lookup_lt_Some _ _ _ Hs) as Hlt.
      set (w1 := emit (ClientCreated c) (upd (set_client c) w)).
      destruct (start_observing_fields w1) as (Htk & Hlive & _ & _ & Hls & _).
      unfold idle_or_observing, task_finish. cbn [self tasks].
      rewrite Hls. subst w1. cbn [emit upd self set_client _listeners] in *.
      destruct (_listeners (self w)) as [|x l]; [done|].
      exists (length (tasks w)). split; [exact Htk|].
      destruct Hlive as (c1 & Hl1 & Hk1).
      rewrite list_lookup_alter_ne by (simpl; lia).
      by destruct c1.
    + apply (idle_or_observing_same w); [done..| |done].
      intros t Ht. simpl. rewrite list_lookup_alter_ne; [done|].
      by eapply suspended_reconnect_ne.
Qed.

Lemma run_idle_or_observing (es : list event) (w : World) :
  undisturbed call es w = true → handles_typed w →
  idle_or_observing w → idle_or_observing (run call es w).
Proof.
  revert w. induction es as [|e es IH]; intros w Hund Hty Hw; [done|].
  simpl in Hund. apply andb_true_iff in Hund as [He Hes].
  simpl. apply IH; [done | by apply step_typed | by apply step_idle_or_observing].
Qed.

(** While a listener is registered the coordinator holds a task, live or
    not: [_task] is cleared only by the removal that empties the list. *)
Lemma step_listeners_hold_task (e : event) (w : World) :
  (_listeners (self w) ≠ [] → is_Some (_task (self w))) →
  _listeners (self (step call e w)) ≠ [] →
  is_Some (_task (self (step call e w))).
Proof.
  intros Hw. rewrite step_listeners, step_task.
  destruct e as [r|cb|cb| | |r|t0 s|t0|t0 r|t0 r]; try done.
  - intros _. case_bool_decide; [done | by apply Hw].
  - destruct (list_remove cb (_listeners (self w))) as [[|x l']|] eqn:Hrm;
      simpl; [done| |done].
    intros _. apply Hw. intros Hnil. by rewrite Hnil in Hrm.
  - destruct r as [c|ex]; [|done].
    intros Hl. destruct (suspended _ _ _); [done | by apply Hw].
Qed.

Lemma run_listeners_hold_task (es : list event) (w : World) :
  (_listeners (self w) ≠ [] → is_Some (_task (self w))) →
  _listeners (self (run call es w)) ≠ [] →
  is_Some (_task (self (run call es w))).
Proof.
  revert w. induction es as [|e es IH]; intros w Hw; [done|].
  simpl. apply IH. by apply step_listeners_hold_task.
Qed.

(** C2, as amended: from a fresh coordinator, through every run of calls,
    updates, refreshes, expiries, reconnects and shutdowns in which no
    stream of a live observation task ends, no listener raises during an
    update, and no reconnect completes while no listener is registered, the
    coordinator holds a live observation task exactly when its listener
    list is not empty.  In every state it reaches at all, the
    [async_add_listener] that finds the list empty starts the observation
    loop (a held task is cancelled, the new task is held and is the only
    live observation task, the timer is reset), and the
    [async_remove_listener] that empties the list finds a task held,
    cancels it and clears the attribute, after which no observation task is
    live. *)
Theorem observing_iff_listeners_undisturbed (c0 : Client) (es : list event) :
  let w := run call es (init c0) in
  (undisturbed call es (init c0) = true →
     (observing w ↔ _listeners (self w) ≠ []))
  ∧ (∀ cb, _listeners (self w) = [] →
       let w' := async_add_listener cb w in
       trace w' = trace w
           ++ match _task (self w) with Some t => [TaskCancel t] | None => [] end
           ++ [TaskCreate (length (tasks w)) ObserveStatus; TimerReset]
       ∧ _listeners (self w') = [cb]
       ∧ _task (self w') = Some (length (tasks w))
       ∧ (∀ t, live is_observe w' t ↔ t = length (tasks w))
       ∧ observing w')
  ∧ (∀ cb, _listeners (self w) = [cb] →
       ∃ t, _task (self w) = Some t ∧
         let w' := (async_remove_listener cb w).2 in
         (async_remove_listener cb w).1 = Ok ()
         ∧ trace w' = trace w ++ [TaskCancel t]
         ∧ _listeners (self w') = []
         ∧ _task (self w') = None
         ∧ (∀ t', ¬ live is_observe w' t')
         ∧ ¬ observing w').
Proof.
  intros w.
  pose proof (run_held call es (init c0) (tasks_held_init c0)) as Hheld.
  assert (undisturbed call es (init c0) = true → idle_or_observing w) as Hiff.
  { intros Hund. apply run_idle_or_observing; [done|..].
    - apply handles_typed_init.
    - apply init_idle. }
  assert (_listeners (self w) ≠ [] → is_Some (_task (self w))) as Hsome.
  { by apply run_listeners_hold_task. }
  fold w in Hheld. clearbody w.
  split; [intros Hund; by apply idle_or_observing_iff, Hiff|]. clear Hiff. split.
  - intros cb Hnil. cbv zeta.
    assert (async_add_listener cb w
            = _start_observing (upd (set_listeners [cb]) w)) as ->.
    { unfold async_add_listener. by rewrite Hnil. }
    set (w1 := upd (set_listeners [cb]) w).
    assert (tasks_held w1) as Hheld1 by exact Hheld.
    destruct (start_observing_fields w1) as (Htk & Hlive & _ & _ & Hls & _).
    split; [apply (start_observing_trace w1)|]. split; [exact Hls|].
    split; [exact Htk|]. split.
    + intros t. by apply (start_observing_only_live w1).
    + exists (length (tasks w)). by split.
  - intros cb Hone.
    destruct Hsome as [t Ht]; [by rewrite Hone|].
    exists t. split; [exact Ht|]. cbv zeta.
    pose proof (remove_listener_held cb w Hheld) as (Ho & _).
    assert (_task (self (async_remove_listener cb w).2) = None) as Hnone.
    { unfold async_remove_listener. rewrite Hone. simpl.
      rewrite decide_True by done. simpl.
      destruct w as [[c st l tk rt d tm] ts tr]; simpl. by destruct tk. }
    assert (∀ t', ¬ live is_observe (async_remove_listener cb w).2 t') as Hdead.
    { intros t' Hl. apply Ho in Hl. congruence. }
    split; [|split; [|split; [|split; [exact Hnone|split; [exact Hdead|]]]]].
    + unfold async_remove_listener. rewrite Hone. simpl.
      rewrite decide_True by done. simpl.
      destruct w as [[c st l tk rt d tm] ts tr]; simpl. by destruct tk.
    + unfold async_remove_listener. rewrite Hone. simpl.
      rewrite decide_True by done. simpl.
      destruct w as [[c st l tk rt d tm] ts tr]; simpl in *. by rewrite Ht.
    + unfold async_remove_listener. rewrite Hone. simpl.
      rewrite decide_True by done. simpl.
      destruct w as [[c st l tk rt d tm] ts tr]; simpl. by destruct tk.
    + intros (t' & _ & Hl). by apply (Hdead t').
Qed.

End Observation_runs.

(** C2, where a stream ends between two registrations, where a listener
    raises during an update, and where a reconnect completes before any
    registration: listeners [1] and [2] are registered and the observation
    task is finished, not live; listener [1] is registered and the task is
    finished; and no listener is registered, a removal has just failed, and
    an observation task is live. *)
Lemma observing_iff_listeners_counterexample :
  let w := run call_ok [EvAddListener 1; EvStreamEnd 0; EvAddListener 2] (init 0) in
  let w1 := run call_1_raises [EvAddListener 1; EvStatus 0 ∅] (init 0) in
  let w2 := run call_ok [EvReconnect; EvReconnectShutdown 0 (Ok ());
                         EvReconnectCreate 0 (Ok 1); EvRemoveListener 7] (init 0) in
  _listeners (self w) = [1; 2]
  ∧ _task (self w) = Some 0
  ∧ tasks w = [mkTask ObserveStatus Done]
  ∧ (∀ t, tasks w !! t ≠ Some (mkTask ObserveStatus Pending))
  ∧ _listeners (self w1) = [1]
  ∧ tasks w1 = [mkTask ObserveStatus Done]
  ∧ _listeners (self w2) = []
  ∧ observing w2.
Proof.
  cbv zeta. split; [reflexivity|]. split; [reflexivity|]. split; [reflexivity|].
  split; [|split; [reflexivity|split; [reflexivity|split; [reflexivity|]]]].
  - intros [|[|t]] Ht; vm_compute in Ht; discriminate Ht.
  - exists 1. split; [reflexivity|].
    exists ObserveStatus. split; reflexivity.
Qed.

(** A run with a refresh, updates, an expiry and a reconnect that
    completes while a listener is registered is undisturbed. *)
Lemma undisturbed_run_example :
  undisturbed call_ok
    [EvFirstRefresh (Ok (∅, 60%Z)); EvAddListener 1; EvStatus 0 ∅; EvTimerExpired;
     EvReconnectShutdown 1 (Ok ()); EvReconnectCreate 1 (Ok 1); EvStatus 2 ∅;
     EvAddListener 2; EvRemoveListener 1; EvShutdown (Ok ())]
    (init 0) = true.
Proof. reflexivity. Qed.
